(** * MediAid: the triage pipeline of [medaid_app.py]

    A shallow embedding of the decision logic of the application: the
    dataset matcher, the reasoning (LLM) matcher with its response parser,
    the keyword rules, the orchestrator [triage_symptoms] and the history
    store.

    Text is modelled as [string] over ASCII characters; the Python [str]
    methods the program calls ([lower], [strip], [title], [splitlines],
    [startswith], [split], [in]) are embedded for that alphabet, where
    characters with codes above 127 are uncased and are neither white space
    nor line boundaries.  The dataset is modelled twice: with cells that
    are text ([Row], [dataset_match], [triage_symptoms]), and with cells
    that are text or NaN, the value of a blank field ([CellRow],
    [dataset_match_cells], [triage_symptoms_cells]), where the dataset tier
    can raise; the two agree on frames of text.  The remote
    service is a function from the prompt to what the call does: it raises,
    or it returns a completion.  A run of [triage_symptoms] is its verdict
    together with the trace of the matchers it called, of the request it
    sent and of the error it logged. *)

From Stdlib Require Import String Ascii List Bool NArith ZArith Lia.
Import ListNotations.
Local Open Scope list_scope.
Local Open Scope string_scope.

(** ** Python's [str] methods, on ASCII text *)

Module PyStr.

Definition code (c : ascii) : N := N_of_ascii c.

Definition between (lo hi : N) (c : ascii) : bool :=
  ((lo <=? code c) && (code c <=? hi))%N.

Definition is_upper (c : ascii) : bool := between 65 90 c.
Definition is_lower (c : ascii) : bool := between 97 122 c.

(** [c] is a cased character: the test [str.title] makes on each one. *)
Definition is_cased (c : ascii) : bool := is_upper c || is_lower c.

Definition to_lower (c : ascii) : ascii :=
  if is_upper c then ascii_of_N (code c + 32) else c.

Definition to_upper (c : ascii) : ascii :=
  if is_lower c then ascii_of_N (code c - 32) else c.

(** White space as [str.strip()] sees it: TAB, LF, VT, FF, CR, the four
    separators FS, GS, RS, US and the space. *)
Definition is_space (c : ascii) : bool := between 9 13 c || between 28 32 c.

(** Line boundaries of [str.splitlines()]: LF, VT, FF, CR, FS, GS, RS. *)
Definition is_linebreak (c : ascii) : bool := between 10 13 c || between 28 30 c.

Definition CR : ascii := "013"%char.
Definition LF : ascii := "010"%char.

(** [s.lower()] *)
Fixpoint lower (s : string) : string :=
  match s with
  | EmptyString => EmptyString
  | String c s' => String (to_lower c) (lower s')
  end.

(** [s.lstrip()] *)
Fixpoint lstrip (s : string) : string :=
  match s with
  | EmptyString => EmptyString
  | String c s' => if is_space c then lstrip s' else s
  end.

(** [s.rstrip()] *)
Fixpoint rstrip (s : string) : string :=
  match s with
  | EmptyString => EmptyString
  | String c s' =>
      match rstrip s' with
      | EmptyString => if is_space c then EmptyString else String c EmptyString
      | r => String c r
      end
  end.

(** [s.strip()] *)
Definition strip (s : string) : string := rstrip (lstrip s).

(** [s.title()]: a cased character is put in upper case when the character
    before it is not cased, and in lower case when it is. *)
Fixpoint title_from (previous_is_cased : bool) (s : string) : string :=
  match s with
  | EmptyString => EmptyString
  | String c s' =>
      String (if previous_is_cased then to_lower c else to_upper c)
             (title_from (is_cased c) s')
  end.

Definition title (s : string) : string := title_from false s.

(** [s.startswith(p)] *)
Definition startswith (s p : string) : bool := String.prefix p s.

(** [needle in hay] *)
Fixpoint contains (needle hay : string) : bool :=
  String.prefix needle hay
  || match hay with
     | EmptyString => false
     | String _ hay' => contains needle hay'
     end.

(** [s.splitlines()]: [line] is the text of the line being read.  A CR
    directly followed by LF is one boundary; no line is produced after the
    last boundary when nothing follows it. *)
Fixpoint splitlines_from (line : string) (s : string) : list string :=
  match s with
  | EmptyString =>
      match line with
      | EmptyString => []
      | _ => [line]
      end
  | String c s' =>
      if is_linebreak c then
        line :: match s' with
                | String c' s'' =>
                    if Ascii.eqb c CR && Ascii.eqb c' LF
                    then splitlines_from EmptyString s''
                    else splitlines_from EmptyString s'
                | EmptyString => splitlines_from EmptyString s'
                end
      else splitlines_from (line ++ String c EmptyString) s'
  end.

Definition splitlines (s : string) : list string := splitlines_from EmptyString s.

(** [s.partition(sep)] for a one-character separator, when [sep] occurs. *)
Fixpoint cut_at (sep : ascii) (s : string) : option (string * string) :=
  match s with
  | EmptyString => None
  | String c s' =>
      if Ascii.eqb c sep then Some (EmptyString, s')
      else match cut_at sep s' with
           | Some (before, after) => Some (String c before, after)
           | None => None
           end
  end.

(** [s.split(sep, 1)] for a one-character separator. *)
Definition split1 (sep : ascii) (s : string) : list string :=
  match cut_at sep s with
  | Some (before, after) => [before; after]
  | None => [s]
  end.

(** [l[-1]] on the (never empty) list a [split] returns. *)
Definition item_last (l : list string) : string := List.last l EmptyString.

End PyStr.

Import PyStr.

(** ** Dictionaries, [max], exceptions and the call trace *)

(** A dict literal with text keys, in the order it is written. *)
Definition dict (V : Type) : Type := list (string * V).

(** [d.get(k)] *)
Fixpoint dict_get {V : Type} (d : dict V) (k : string) : option V :=
  match d with
  | [] => None
  | (k', v) :: d' => if String.eqb k' k then Some v else dict_get d' k
  end.

(** [d.get(k, default)] *)
Definition dict_get_default {V : Type} (d : dict V) (k : string) (default : V) : V :=
  match dict_get d k with
  | Some v => v
  | None => default
  end.

(** [k in d] *)
Definition dict_mem {V : Type} (d : dict V) (k : string) : bool :=
  match dict_get d k with
  | Some _ => true
  | None => false
  end.

(** [max(first :: rest, key=key)]: the running maximum is replaced only by
    an item whose key is strictly greater. *)
Fixpoint max_from {A : Type} (key : A -> Z) (best : A) (rest : list A) : A :=
  match rest with
  | [] => best
  | x :: rest' =>
      if (key best <? key x)%Z then max_from key x rest' else max_from key best rest'
  end.

(** The exceptions of a run: those the reasoning tier can meet inside its
    [try] block, and the one the dataset tier raises on a cell that is not
    text. *)
Inductive exn : Type :=
  | APIError (msg : string)   (* raised by the remote call *)
  | IndexError                (* [choices[0]] on an empty list *)
  | AttributeError            (* [.strip()] on a [None] content *)
  | TypeError.                (* [x in text] when [x] is not text *)

Inductive result (A : Type) : Type :=
  | Ok (a : A)
  | Raise (e : exn).
Arguments Ok {A} a.
Arguments Raise {A} e.

Inductive tier : Type := Dataset | Reasoning | Rules.

(** What a run of [triage_symptoms] does besides computing its value. *)
Inductive event : Type :=
  | Try (t : tier)             (* the matcher of tier [t] is called *)
  | Request (prompt : string)  (* [chat.completions.create] is called *)
  | LogError (e : exn).           (* [print("LLM error:", e)] *)

(** A value together with the events of the run, oldest first. *)
Definition Traced (A : Type) : Type := (A * list event)%type.

Class Monad (M : Type -> Type) : Type := {
  ret : forall {A : Type}, A -> M A;
  bind : forall {A B : Type}, M A -> (A -> M B) -> M B
}.

#[export] Instance Monad_result : Monad result := {
  ret := fun A a => Ok a;
  bind := fun A B m k => match m with Ok a => k a | Raise e => Raise e end
}.

#[export] Instance Monad_Traced : Monad Traced := {
  ret := fun A a => (a, []);
  bind := fun A B m k => let (b, t) := k (fst m) in (b, (snd m ++ t)%list)
}.

Definition tell (es : list event) : Traced unit := (tt, es).

Declare Scope monad_scope.
Notation "x <- c ;; k" := (bind c (fun x => k))
  (at level 61, c at next level, right associativity) : monad_scope.
Notation "c ;; k" := (bind c (fun _ => k))
  (at level 61, right associativity) : monad_scope.
Local Open Scope monad_scope.

(** ** Static data *)

Record ConditionRule : Type := {
  cond_keywords : list string;
  cond_severity : string;
  cond_advice : string
}.

Definition CONDITIONS : list ConditionRule := [
  {| cond_keywords := ["chest pain"; "shortness of breath"; "severe bleeding";
                       "unconscious"; "stroke"; "heart attack"];
     cond_severity := "Severe";
     cond_advice := "Go to the ER immediately. Call emergency services (911 or your local number)." |};
  {| cond_keywords := ["high fever"; "vomiting"; "dehydration"; "severe headache";
                       "confusion"; "stiff neck"; "difficulty breathing"];
     cond_severity := "Moderate";
     cond_advice := "Consult a doctor within 24 hours. If symptoms worsen, seek emergency care." |};
  {| cond_keywords := ["cough"; "runny nose"; "mild headache"; "mild sore throat";
                       "back pain"; "fatigue"];
     cond_severity := "Mild";
     cond_advice := "Home care recommended. Rest, stay hydrated, and monitor symptoms." |}
].

(** The display table; the icon glyphs are presentation only and are left
    out, the keys are what the parser tests membership in. *)
Record display : Type := { color : string; desc : string }.

Definition SEVERITY_DISPLAY : dict display := [
  ("Mild", {| color := "green"; desc := "Home care" |});
  ("Moderate", {| color := "yellow"; desc := "See a doctor soon" |});
  ("Severe", {| color := "red"; desc := "Emergency (ER)" |})
].

Definition risk_priority : dict Z := [("Severe", 3%Z); ("Moderate", 2%Z); ("Mild", 1%Z)].

(** The three severity tiers of the vocabulary. *)
Definition tiers : list string := ["Mild"; "Moderate"; "Severe"].

(** ** The dataset *)

(** One row of the frame, with its three text columns. *)
Record Row : Type := {
  symptom : string;
  disease : string;
  risk_level : string
}.

Definition DataFrame : Type := list Row.

(** [df[col] = f(df[col])] for each of the three columns. *)
Definition assign_symptom (f : string -> string) (df : DataFrame) : DataFrame :=
  map (fun r => {| symptom := f (symptom r); disease := disease r; risk_level := risk_level r |}) df.
Definition assign_disease (f : string -> string) (df : DataFrame) : DataFrame :=
  map (fun r => {| symptom := symptom r; disease := f (disease r); risk_level := risk_level r |}) df.
Definition assign_risk_level (f : string -> string) (df : DataFrame) : DataFrame :=
  map (fun r => {| symptom := symptom r; disease := disease r; risk_level := f (risk_level r) |}) df.

(** [load_dataset()]: [file] is what [pd.read_csv(DATASET_FILE)] gives when
    the file exists, [None] when it does not. *)
Definition load_dataset (file : option DataFrame) : option DataFrame :=
  match file with
  | Some df =>
      let df := assign_symptom (fun s => strip (lower s)) df in
      let df := assign_disease strip df in
      let df := assign_risk_level (fun s => title (strip s)) df in
      Some df
  | None => None
  end.

Definition preprocess (text : string) : string := strip (lower text).

(** The dict [dataset_match] returns. *)
Record MatchResult : Type := {
  res_disease : string;
  res_severity : string;
  res_advice : string
}.

(** The completion object of the remote call: the [message.content] of each
    of its choices, [None] for a null content. *)
Record completion : Type := { choices : list (option string) }.

(** [openai_client.chat.completions.create] as a function of the prompt. *)
Definition client : Type := string -> result completion.

Definition nl : string := String LF EmptyString.

Definition verdict : Type := (string * string * string)%type.

(** The body of the [for line in text.splitlines()] loop. *)
Definition parse_line (st : verdict) (line : string) : verdict :=
  let '(severity, advice, disease) := st in
  if startswith (lower line) "severity:" then
    let val := title (strip (item_last (split1 ":" line))) in
    if dict_mem SEVERITY_DISPLAY val then (val, advice, disease)
    else (severity, advice, disease)
  else if startswith (lower line) "advice:" then
    (severity, strip (item_last (split1 ":" line)), disease)
  else if startswith (lower line) "disease:" then
    (severity, advice, strip (item_last (split1 ":" line)))
  else (severity, advice, disease).

(** The parse of [text], from the defaults to the [return]. *)
Definition parse_text (text : string) : verdict :=
  fold_left parse_line (splitlines text) ("Mild", "", "").

(** The parse of a response: its content is stripped, then parsed. *)
Definition parse_response (content : string) : verdict :=
  parse_text (strip content).

Definition prompt (symptoms_text : string) : string :=
  "You are a medical triage assistant. "
  ++ "A patient describes their symptoms. "
  ++ "Decide the urgency: Mild (home care, self-monitor), Moderate (see a doctor within 24h), Severe (go to ER now). "
  ++ "Give a short summary of severity and advice, and if possible, suggest a likely disease (optional)." ++ nl ++ nl
  ++ "Symptoms: " ++ symptoms_text ++ nl
  ++ "Respond in this exact format:" ++ nl
  ++ "Severity: [Mild/Moderate/Severe]" ++ nl
  ++ "Advice: [brief advice]" ++ nl
  ++ "Disease: [optional, if highly likely]" ++ nl.

(** [rule_based_triage]: the inner loop over the keywords of one rule ... *)
Fixpoint keyword_hit (keywords : list string) (symptoms_text : string) : bool :=
  match keywords with
  | [] => false
  | kw :: keywords' =>
      if contains kw symptoms_text then true else keyword_hit keywords' symptoms_text
  end.

(** ... and the outer loop over the rules, up to its [return]. *)
Fixpoint scan_conditions (conds : list ConditionRule) (symptoms_text : string)
  : option (string * string) :=
  match conds with
  | [] => None
  | cond :: conds' =>
      if keyword_hit (cond_keywords cond) symptoms_text
      then Some (cond_severity cond, cond_advice cond)
      else scan_conditions conds' symptoms_text
  end.

Definition rule_based_triage (symptoms_text : string) : string * string :=
  match scan_conditions CONDITIONS symptoms_text with
  | Some r => r
  | None => ("Mild", "Home care recommended. Rest, stay hydrated, and monitor symptoms.")
  end.

(** ** The pipeline, over the two globals set at start-up *)

Section Pipeline.

(** [symptoms_df]: the loaded frame, [None] without a dataset file. *)
Variable symptoms_df : option DataFrame.
(** [openai_client]: [None] without an API key. *)
Variable openai_client : option client.

Definition row_priority (row : Row) : Z :=
  dict_get_default risk_priority (risk_level row) 0%Z.

Definition dataset_match (symptoms_text : string) : option MatchResult :=
  match symptoms_df with
  | None => None
  | Some df =>
      let matches := filter (fun row => contains (symptom row) symptoms_text) df in
      match matches with
      | [] => None
      | first :: rest =>
          let best := max_from row_priority first rest in
          Some {| res_disease := disease best;
                  res_severity := risk_level best;
                  res_advice := "Possible: " ++ disease best
                                ++ ". Please consult a doctor for proper diagnosis." |}
      end
  end.

(** The [try] block of [llm_triage]. *)
Definition llm_request (create : client) (symptoms_text : string) : result verdict :=
  completion <- create (prompt symptoms_text) ;;
  choice <- match choices completion with
            | [] => Raise IndexError
            | c :: _ => Ok c
            end ;;
  content <- match choice with
             | None => Raise AttributeError
             | Some s => Ok s
             end ;;
  ret (parse_response content).

Definition llm_triage (symptoms_text : string) : Traced (option verdict) :=
  match openai_client with
  | None => ret None
  | Some create =>
      tell [Request (prompt symptoms_text)] ;;
      match llm_request create symptoms_text with
      | Ok r => ret (Some r)
      | Raise e => tell [LogError e] ;; ret None
      end
  end.

(** [triage_symptoms]: the dict of a dataset match and the 3-tuple of a
    reasoning match are both truthy, so each [if] tests for [None]. *)
Definition triage_symptoms (symptoms_text : string) : Traced verdict :=
  let symptoms_text := preprocess symptoms_text in
  tell [Try Dataset] ;;
  match dataset_match symptoms_text with
  | Some dataset_result =>
      ret (res_severity dataset_result, res_advice dataset_result,
           res_disease dataset_result)
  | None =>
      tell [Try Reasoning] ;;
      llm_result <- llm_triage symptoms_text ;;
      match llm_result with
      | Some (severity, advice, disease) => ret (severity, advice, disease)
      | None =>
          tell [Try Rules] ;;
          let '(severity, advice) := rule_based_triage symptoms_text in
          ret (severity, advice, "")
      end
  end.

End Pipeline.

(** ** The history store *)

Record HistoryEntry : Type := {
  h_symptoms : string;
  h_severity : string;
  h_advice : string;
  h_disease : string
}.

(** [HISTORY_FILE]: absent, or holding the JSON list of the entries. *)
Definition HistoryFile : Type := option (list HistoryEntry).

Definition save_history (entry : HistoryEntry) (file : HistoryFile) : HistoryFile :=
  let history := match file with
                 | None => []
                 | Some stored => stored
                 end in
  Some (history ++ [entry])%list.

Definition load_history (file : HistoryFile) : list HistoryEntry :=
  match file with
  | None => []
  | Some stored => stored
  end.

(** Appending the entries of [entries], first to last. *)
Definition save_all (entries : list HistoryEntry) (file : HistoryFile) : HistoryFile :=
  fold_left (fun f entry => save_history entry f) entries file.

(** ** Notions the statements use *)

(** [needle] occurs in [hay] as a run of consecutive characters. *)
Definition occurs_in (needle hay : string) : Prop :=
  exists before after, hay = before ++ needle ++ after.

(** [line] opens with [label], whatever the case of its letters. *)
Definition has_label (label line : string) : bool := startswith (lower line) label.

(** The text of [line] after its first colon. *)
Definition after_colon (line : string) : string := item_last (split1 ":" line).

(** The tier a Severity line names, when its value is one of the three. *)
Definition named_tier (line : string) : string := title (strip (after_colon line)).

Definition names_tier (line : string) : bool := dict_mem SEVERITY_DISPLAY (named_tier line).

(** A Severity line that sets the field. *)
Definition sets_severity (line : string) : bool :=
  has_label "severity:" line && names_tier line.

(** The last item of [l] that satisfies [p]. *)
Definition find_last {A : Type} (p : A -> bool) (l : list A) : option A := find p (rev l).

Definition default_verdict : string * string :=
  ("Mild", "Home care recommended. Rest, stay hydrated, and monitor symptoms.").

(** The rows of [df] the dataset matcher collects for [text]. *)
Definition matching_rows (df : DataFrame) (text : string) : list Row :=
  filter (fun row => contains (symptom row) text) df.

Definition verdict_severity (v : verdict) : string := fst (fst v).
Definition verdict_advice (v : verdict) : string := snd (fst v).
Definition verdict_disease (v : verdict) : string := snd v.

(** The verdict [triage_symptoms] builds from a dataset match. *)
Definition verdict_of_match (res : MatchResult) : verdict :=
  (res_severity res, res_advice res, res_disease res).

(** The verdict [triage_symptoms] builds from the rule tier. *)
Definition verdict_of_rules (text : string) : verdict :=
  (fst (rule_based_triage text), snd (rule_based_triage text), "").

(** The row a load makes of a row of the file. *)
Definition cleaned (r : Row) : Row :=
  {| symptom := strip (lower (symptom r));
     disease := strip (disease r);
     risk_level := title (strip (risk_level r)) |}.

(** ** Sample data *)

Definition sample_frame : DataFrame := [
  {| symptom := "fever"; disease := "Flu"; risk_level := "Moderate" |};
  {| symptom := "chest pain"; disease := "Angina"; risk_level := "Severe" |};
  {| symptom := "high fever"; disease := "Sepsis"; risk_level := "Severe" |};
  {| symptom := "cough"; disease := "Cold"; risk_level := "Mild" |}
].

(** A file whose only row has a risk level outside the vocabulary. *)
Definition file_with_high : DataFrame := [
  {| symptom := " Headache "; disease := " Migraine "; risk_level := " high " |}
].

(** A file with a row whose symptom cell is white space only. *)
Definition file_with_blank : DataFrame := [
  {| symptom := "Rash"; disease := "Allergy"; risk_level := "mild" |};
  {| symptom := "   "; disease := "Unknown"; risk_level := "moderate" |}
].

(** A service that answers with an empty message. *)
Definition silent_client : client := fun _ => Ok {| choices := [Some ""] |}.

(** A service that is out of reach. *)
Definition failing_client : client := fun _ => Raise (APIError "timeout").

(** A service that answers in the format the prompt asks for. *)
Definition answering_client : client := fun _ =>
  Ok {| choices := [Some ("Severity: severe" ++ nl ++ "Advice: go now" ++ nl ++ "Disease: flu")] |}.

Definition sample_entries : list HistoryEntry := [
  {| h_symptoms := "I have chest pain"; h_severity := "Severe";
     h_advice := "Go to the ER immediately. Call emergency services (911 or your local number).";
     h_disease := "" |};
  {| h_symptoms := "cough"; h_severity := "Mild"; h_advice := "Possible: Cold. Please consult a doctor for proper diagnosis.";
     h_disease := "Cold" |}
].

(** ** The request handlers *)

Section Handlers.

Variable symptoms_df : option DataFrame.
Variable openai_client : option client.

(** The entry both handlers build from the text they received and the
    verdict. *)
Definition entry_of (symptoms : string) (v : verdict) : HistoryEntry :=
  let '(severity, advice, disease) := v in
  {| h_symptoms := symptoms; h_severity := severity;
     h_advice := advice; h_disease := disease |}.

(** [triage_api]: [data] is [request.json], a dict of text fields; the
    value is the entry given to [jsonify] and the history file after the
    call. *)
Definition triage_api (data : dict string) (file : HistoryFile)
  : Traced (HistoryEntry * HistoryFile) :=
  let symptoms := dict_get_default data "symptoms" "" in
  v <- triage_symptoms symptoms_df openai_client symptoms ;;
  let entry := entry_of symptoms v in
  ret (entry, save_history entry file).

(** What [home] passes to the template. *)
Record HomeContext : Type := {
  triage_result : option HistoryEntry;
  home_history : list HistoryEntry
}.

(** [home]: [method] is [request.method] and [form] is [request.form]. *)
Definition home (method : string) (form : dict string) (file : HistoryFile)
  : Traced (HomeContext * HistoryFile) :=
  let history := load_history file in
  if String.eqb method "POST" then
    let symptoms := dict_get_default form "symptoms" "" in
    v <- triage_symptoms symptoms_df openai_client symptoms ;;
    let entry := entry_of symptoms v in
    let file := save_history entry file in
    let history := load_history file in
    ret ({| triage_result := Some entry; home_history := history |}, file)
  else
    ret ({| triage_result := None; home_history := history |}, file).

(** The calls of [triage_api] for the requests of [requests], first to
    last: the responses, and the history file at the end. *)
Fixpoint api_session (requests : list (dict string)) (file : HistoryFile)
  : list HistoryEntry * HistoryFile :=
  match requests with
  | [] => ([], file)
  | data :: requests' =>
      let '(entry, file') := fst (triage_api data file) in
      let '(entries, file'') := api_session requests' file' in
      (entry :: entries, file'')
  end.

End Handlers.

(** [history]: the list the history page is rendered from. *)
Definition history (file : HistoryFile) : list HistoryEntry := load_history file.

(** [history[-5:]], the entries the home page lists. *)
Definition last_five {A : Type} (l : list A) : list A :=
  skipn (List.length l - 5) l.

(** [history[::-1]], the entries the history page lists. *)
Definition newest_first {A : Type} (l : list A) : list A := rev l.

(** ** The dataset with blank fields *)

(** A cell of the loaded frame: the text of the field, or NaN, which is
    what [pd.read_csv] gives for a blank field and what the [.str] methods
    of [load_dataset] leave in place. *)
Inductive cell : Type :=
  | Text (s : string)
  | NaN.

Record CellRow : Type := {
  cell_symptom : cell;
  cell_disease : cell;
  cell_risk_level : cell
}.

Definition CellFrame : Type := list CellRow.

(** The cell as an f-string formats it. *)
Definition cell_str (c : cell) : string :=
  match c with
  | Text s => s
  | NaN => "nan"
  end.

(** [risk_priority.get(value, 0)]: NaN is no key of the dict. *)
Definition cell_priority (c : cell) : Z :=
  match c with
  | Text s => dict_get_default risk_priority s 0%Z
  | NaN => 0%Z
  end.

(** [value in symptoms_text]: a [TypeError] when [value] is not text. *)
Definition cell_in (c : cell) (symptoms_text : string) : result bool :=
  match c with
  | Text s => Ok (contains s symptoms_text)
  | NaN => Raise TypeError
  end.

(** The loop of [dataset_match] that fills [matches], row after row. *)
Fixpoint collect_matches (df : CellFrame) (symptoms_text : string)
  : result (list CellRow) :=
  match df with
  | [] => Ok []
  | row :: df' =>
      hit <- cell_in (cell_symptom row) symptoms_text ;;
      matches <- collect_matches df' symptoms_text ;;
      ret (if (hit : bool) then row :: matches else matches)
  end.

(** The dict [dataset_match] returns, over cells. *)
Record CellMatch : Type := {
  cm_disease : cell;
  cm_severity : cell;
  cm_advice : string
}.

Definition cell_row_priority (row : CellRow) : Z := cell_priority (cell_risk_level row).

(** [dataset_match] over a frame with blank fields. *)
Definition dataset_match_cells (symptoms_df : option CellFrame)
    (symptoms_text : string) : result (option CellMatch) :=
  match symptoms_df with
  | None => Ok None
  | Some df =>
      matches <- collect_matches df symptoms_text ;;
      match matches with
      | [] => Ok None
      | first :: rest =>
          let best := max_from cell_row_priority first rest in
          Ok (Some {| cm_disease := cell_disease best;
                       cm_severity := cell_risk_level best;
                       cm_advice := "Possible: " ++ cell_str (cell_disease best)
                                    ++ ". Please consult a doctor for proper diagnosis." |})
      end
  end.

(** A verdict whose severity and disease may be cells of the dataset. *)
Definition cell_verdict : Type := (cell * string * cell)%type.

(** [triage_symptoms] over a frame with blank fields: the value returned
    or the exception raised, and the trace of the run.  [dataset_match] is
    called outside any [try]. *)
Definition triage_symptoms_cells (symptoms_df : option CellFrame)
    (openai_client : option client) (symptoms_text : string)
  : result cell_verdict * list event :=
  let symptoms_text := preprocess symptoms_text in
  match dataset_match_cells symptoms_df symptoms_text with
  | Raise e => (Raise e, [Try Dataset])
  | Ok (Some dataset_result) =>
      (Ok (cm_severity dataset_result, cm_advice dataset_result,
           cm_disease dataset_result), [Try Dataset])
  | Ok None =>
      let (llm_result, calls) := llm_triage openai_client symptoms_text in
      match llm_result with
      | Some (severity, advice, disease) =>
          (Ok (Text severity, advice, Text disease),
           ([Try Dataset; Try Reasoning] ++ calls)%list)
      | None =>
          let '(severity, advice) := rule_based_triage symptoms_text in
          (Ok (Text severity, advice, Text ""),
           ([Try Dataset; Try Reasoning] ++ calls ++ [Try Rules])%list)
      end
  end.

(** A frame of text seen as a frame of cells. *)
Definition cells_of_row (row : Row) : CellRow :=
  {| cell_symptom := Text (symptom row);
     cell_disease := Text (disease row);
     cell_risk_level := Text (risk_level row) |}.

Definition cells_of_frame (df : DataFrame) : CellFrame := map cells_of_row df.

Definition cells_of_match (res : MatchResult) : CellMatch :=
  {| cm_disease := Text (res_disease res);
     cm_severity := Text (res_severity res);
     cm_advice := res_advice res |}.

Definition cells_of_verdict (v : verdict) : cell_verdict :=
  let '(severity, advice, disease) := v in (Text severity, advice, Text disease).

Definition is_text (c : cell) : bool :=
  match c with
  | Text _ => true
  | NaN => false
  end.

(** No symptom cell of the frame is blank. *)
Definition symptoms_are_text (df : option CellFrame) : bool :=
  match df with
  | None => true
  | Some rows => forallb (fun row => is_text (cell_symptom row)) rows
  end.

(** The cell holds one of the three tiers. *)
Definition is_tier (c : cell) : Prop := exists tier, c = Text tier /\ In tier tiers.

(** The phrase of the cell occurs in the text. *)
Definition cell_occurs_in (c : cell) (text : string) : Prop :=
  exists phrase, c = Text phrase /\ occurs_in phrase text.

(** The rows of [df] whose phrase occurs in [text]. *)
Definition matching_cell_rows (df : CellFrame) (text : string) : list CellRow :=
  filter (fun row => match cell_symptom row with
                     | Text phrase => contains phrase text
                     | NaN => false
                     end) df.

(** A loaded frame whose second row comes from a line with a blank symptom
    field. *)
Definition frame_with_blank_symptom : CellFrame := [
  {| cell_symptom := Text "fever"; cell_disease := Text "Flu";
     cell_risk_level := Text "Moderate" |};
  {| cell_symptom := NaN; cell_disease := Text "Cold";
     cell_risk_level := Text "Mild" |}
].

(** A loaded frame with blank disease and risk level fields. *)
Definition frame_with_blank_risk : CellFrame := [
  {| cell_symptom := Text "rash"; cell_disease := NaN; cell_risk_level := NaN |};
  {| cell_symptom := Text "cough"; cell_disease := Text "Cold";
     cell_risk_level := Text "Mild" |}
].

(** Every character of the text is an ASCII character. *)
Fixpoint ascii_text (s : string) : bool :=
  match s with
  | EmptyString => true
  | String c s' => (code c <? 128)%N && ascii_text s'
  end.

(** ** More notions the statements use *)

Fixpoint all_space (s : string) : bool :=
  match s with
  | EmptyString => true
  | String c s' => is_space c && all_space s'
  end.

Definition starts_with_space (s : string) : bool :=
  match s with
  | EmptyString => false
  | String c _ => is_space c
  end.

Fixpoint ends_with_space (s : string) : bool :=
  match s with
  | EmptyString => false
  | String c EmptyString => is_space c
  | String _ s' => ends_with_space s'
  end.

(** No character of [s] is a line boundary. *)
Fixpoint one_line (s : string) : bool :=
  match s with
  | EmptyString => true
  | String c s' => negb (is_linebreak c) && one_line s'
  end.

(** The risk priority of a severity, 0 outside the three tiers. *)
Definition severity_rank (severity : string) : Z :=
  dict_get_default risk_priority severity 0%Z.

(** The severity of the entry has a record in the display table. *)
Definition displayable (entry : HistoryEntry) : bool :=
  dict_mem SEVERITY_DISPLAY (h_severity entry).

(** Every risk level of the frame is one of the three tiers. *)
Definition recognised_frame (df : option DataFrame) : bool :=
  match df with
  | None => true
  | Some rows => forallb (fun row => dict_mem SEVERITY_DISPLAY (risk_level row)) rows
  end.

(** The keywords the catalog lists for a severity. *)
Definition keywords_of (severity : string) : list string :=
  flat_map (fun cond => if String.eqb (cond_severity cond) severity
                        then cond_keywords cond else []) CONDITIONS.

(** The trace of a run asks the service [n] times. *)
Definition request_count (calls : list event) : nat :=
  List.length (filter (fun e => match e with Request _ => true | _ => false end) calls).

(** * Properties *)

(** ** Text *)

Section TextFacts.

Example lower_strip_sample : strip (lower "  I have Chest PAIN ") = "i have chest pain".
Proof. reflexivity. Qed.

Example strip_inner_space_sample : strip (" a b " ++ nl) = "a b".
Proof. reflexivity. Qed.

Example title_sample : title "seVERE" = "Severe" /\ title "s3vere mild" = "S3Vere Mild".
Proof. split; reflexivity. Qed.

Example splitlines_sample :
  splitlines ("a" ++ nl ++ nl ++ "b" ++ String CR nl) = ["a"; ""; "b"]
  /\ splitlines "" = [].
Proof. split; reflexivity. Qed.

Example split1_sample :
  item_last (split1 ":" "Severity: a:b") = " a:b"
  /\ item_last (split1 ":" "no colon") = "no colon".
Proof. split; reflexivity. Qed.

Lemma append_empty_r (s : string) : s ++ "" = s.
Proof. induction s as [|c s IH]; simpl; [reflexivity | now rewrite IH]. Qed.

Lemma append_assoc (a b c : string) : (a ++ b) ++ c = a ++ b ++ c.
Proof. induction a as [|x a IH]; simpl; [reflexivity | now rewrite IH]. Qed.

Lemma prefix_occurs (p s : string) :
  String.prefix p s = true <-> exists rest, s = p ++ rest.
Proof.
  revert s; induction p as [|a p IH]; intros s.
  - destruct s; simpl; split; eauto.
  - destruct s as [|b s]; simpl.
    + split; [discriminate | intros [rest H]; discriminate].
    + destruct (ascii_dec a b) as [->|Hne].
      * rewrite IH. split; intros [rest H]; exists rest.
        -- now rewrite H.
        -- now injection H.
      * split; [discriminate | intros [rest H]; injection H; intros; congruence].
Qed.

Lemma contains_occurs (needle hay : string) :
  contains needle hay = true <-> occurs_in needle hay.
Proof.
  unfold occurs_in. induction hay as [|c hay IH].
  - cbn [contains]. rewrite orb_false_r, prefix_occurs. split.
    + intros [rest H]. now exists "", rest.
    + intros [[|x before] [after H]]; simpl in H; [now exists after | discriminate].
  - cbn [contains]. rewrite orb_true_iff, prefix_occurs, IH. split.
    + intros [[rest H] | [before [after H]]].
      * now exists "", rest.
      * exists (String c before), after. simpl. now rewrite H.
    + intros [[|x before] [after H]]; simpl in H.
      * left. now exists after.
      * right. injection H as _ H. now exists before, after.
Qed.

Lemma contains_empty (hay : string) : contains "" hay = true.
Proof. destruct hay; reflexivity. Qed.

Lemma not_contains_occurs (needle hay : string) :
  contains needle hay = false <-> ~ occurs_in needle hay.
Proof.
  rewrite <- contains_occurs. destruct (contains needle hay); split; congruence.
Qed.

(** [cut_at] cuts at the first occurrence of the separator. *)
Lemma cut_at_first (sep : ascii) (s before after : string) :
  cut_at sep s = Some (before, after) ->
  s = before ++ String sep after /\ cut_at sep before = None.
Proof.
  revert before; induction s as [|c s IH]; intros before; simpl; [discriminate|].
  destruct (Ascii.eqb_spec c sep) as [->|Hne].
  - intros [= <- <-]. now split.
  - destruct (cut_at sep s) as [[b a]|]; [|discriminate].
    intros [= <- <-]. destruct (IH b eq_refl) as [-> Hb]. split; [reflexivity|].
    simpl. destruct (Ascii.eqb_spec c sep); [contradiction|]. now rewrite Hb.
Qed.

Lemma after_colon_cut (before after : string) :
  cut_at ":" before = None ->
  after_colon (before ++ String ":" after) = after.
Proof.
  intros Hb. unfold after_colon, split1.
  assert (H : cut_at ":" (before ++ String ":" after) = Some (before, after)).
  { induction before as [|c b IH]; simpl in *; [reflexivity|].
    destruct (Ascii.eqb c ":"); [discriminate|].
    destruct (cut_at ":" b) as [[? ?]|]; [discriminate|].
    now rewrite IH. }
  now rewrite H.
Qed.

Lemma prefix_cons (a b : ascii) (p s : string) :
  String.prefix (String a p) (String b s)
  = if Ascii.eqb a b then String.prefix p s else false.
Proof.
  cbn [String.prefix]. destruct (ascii_dec a b) as [->|Hne].
  - now rewrite Ascii.eqb_refl.
  - destruct (Ascii.eqb_spec a b); [contradiction | reflexivity].
Qed.

(** The three labels exclude one another. *)
Lemma severity_label_only (line : string) :
  has_label "severity:" line = true ->
  has_label "advice:" line = false /\ has_label "disease:" line = false.
Proof.
  unfold has_label, startswith. destruct (lower line) as [|c s].
  - intros H; vm_compute in H; discriminate.
  - rewrite !prefix_cons.
    destruct (Ascii.eqb_spec "s" c) as [<-|]; [|discriminate]. now split.
Qed.

Lemma advice_label_only (line : string) :
  has_label "advice:" line = true -> has_label "disease:" line = false.
Proof.
  unfold has_label, startswith. destruct (lower line) as [|c s].
  - intros H; vm_compute in H; discriminate.
  - rewrite !prefix_cons.
    destruct (Ascii.eqb_spec "a" c) as [<-|]; [|discriminate]. reflexivity.
Qed.

End TextFacts.

(** ** The dataset matcher *)

Section DatasetFacts.

Lemma max_from_first_maximum {A : Type} (key : A -> Z) (rest : list A) :
  forall first, exists before after,
    first :: rest = (before ++ max_from key first rest :: after)%list
    /\ (forall r, In r before -> (key r < key (max_from key first rest))%Z)
    /\ (forall r, In r after -> (key r <= key (max_from key first rest))%Z).
Proof.
  induction rest as [|x rest IH]; intros first; simpl.
  - exists [], []. simpl. repeat split; intros r [].
  - destruct (Z.ltb_spec (key first) (key x)) as [Hlt|Hge].
    + destruct (IH x) as (before & after & Heq & Hb & Ha).
      exists (first :: before), after. simpl. rewrite <- Heq. split; [reflexivity|].
      split; [|exact Ha]. intros r [<-|Hr]; [|now apply Hb].
      assert (Hx : In x (before ++ max_from key x rest :: after)%list)
        by (rewrite <- Heq; now left).
      apply in_app_or in Hx. destruct Hx as [Hx|[Hx|Hx]].
      * specialize (Hb _ Hx). lia.
      * rewrite Hx. lia.
      * specialize (Ha _ Hx). lia.
    + destruct (IH first) as (before & after & Heq & Hb & Ha).
      destruct before as [|b before]; simpl in Heq.
      * injection Heq as Hm Hrest. exists [], (x :: rest). simpl.
        rewrite <- Hm. split; [reflexivity|]. split; [intros r []|].
        intros r [<-|Hr]; [lia|]. rewrite Hm. apply Ha. now rewrite <- Hrest.
      * injection Heq as Hf Hrest. subst b.
        exists (first :: x :: before), after. simpl.
        split; [do 2 f_equal; exact Hrest|]. split; [|exact Ha].
        assert (Hfirst : (key first < key (max_from key first rest))%Z)
          by (apply Hb; now left).
        intros r [<-|[<-|Hr]]; [exact Hfirst | lia | apply Hb; now right].
Qed.

Lemma row_priority_cases (row : Row) :
  (risk_level row = "Severe" /\ row_priority row = 3%Z)
  \/ (risk_level row = "Moderate" /\ row_priority row = 2%Z)
  \/ (risk_level row = "Mild" /\ row_priority row = 1%Z)
  \/ (~ In (risk_level row) tiers /\ row_priority row = 0%Z).
Proof.
  unfold row_priority, dict_get_default, risk_priority, dict_get.
  destruct (String.eqb_spec "Severe" (risk_level row)) as [<-|H3]; [now left|].
  destruct (String.eqb_spec "Moderate" (risk_level row)) as [<-|H2]; [now right; left|].
  destruct (String.eqb_spec "Mild" (risk_level row)) as [<-|H1]; [now right; right; left|].
  right; right; right. split; [|reflexivity].
  intros [H|[H|[H|[]]]]; congruence.
Qed.

Lemma matching_rows_occurs (df : DataFrame) (text : string) (row : Row) :
  In row (matching_rows df text) <-> In row df /\ occurs_in (symptom row) text.
Proof.
  unfold matching_rows. now rewrite filter_In, contains_occurs.
Qed.

(** The matcher on its candidates: failure on none, else the first
    candidate of greatest priority. *)
Lemma dataset_match_selects (df : DataFrame) (text : string) :
  match dataset_match (Some df) text with
  | None => matching_rows df text = []
  | Some res =>
      exists before best after,
        matching_rows df text = (before ++ best :: after)%list
        /\ (forall r, In r before -> (row_priority r < row_priority best)%Z)
        /\ (forall r, In r after -> (row_priority r <= row_priority best)%Z)
        /\ res = {| res_disease := disease best;
                    res_severity := risk_level best;
                    res_advice := "Possible: " ++ disease best
                                  ++ ". Please consult a doctor for proper diagnosis." |}
  end.
Proof.
  unfold dataset_match. fold (matching_rows df text).
  destruct (matching_rows df text) as [|first rest]; [reflexivity|].
  destruct (max_from_first_maximum row_priority rest first)
    as (before & after & Heq & Hb & Ha).
  exists before, (max_from row_priority first rest), after. now repeat split.
Qed.

(** C3. The dataset matcher collects exactly the rows of the index whose
    symptom phrase occurs in the input, keeping the table's order.  Without
    a candidate it reports no match.  Otherwise it returns the disease, risk
    level and templated advice of the candidate of highest risk priority
    (Severe 3, Moderate 2, Mild 1), the first such in table order: every
    candidate before it has a strictly lower priority, every one after it
    has no higher priority.  When a candidate has risk level Severe, the
    returned severity is Severe, whatever the other candidates are. *)
Theorem dataset_match_highest_risk (df : DataFrame) (text : string) :
  (forall row, In row (matching_rows df text)
               <-> In row df /\ occurs_in (symptom row) text)
  /\ (exists p, (forall row, p row = true <-> occurs_in (symptom row) text)
                /\ matching_rows df text = filter p df)
  /\ (forall s d,
        row_priority {| symptom := s; disease := d; risk_level := "Severe" |} = 3%Z
        /\ row_priority {| symptom := s; disease := d; risk_level := "Moderate" |} = 2%Z
        /\ row_priority {| symptom := s; disease := d; risk_level := "Mild" |} = 1%Z)
  /\ match dataset_match (Some df) text with
     | None => matching_rows df text = []
     | Some res =>
         exists before best after,
           matching_rows df text = (before ++ best :: after)%list
           /\ (forall r, In r before -> (row_priority r < row_priority best)%Z)
           /\ (forall r, In r after -> (row_priority r <= row_priority best)%Z)
           /\ res = {| res_disease := disease best;
                       res_severity := risk_level best;
                       res_advice := "Possible: " ++ disease best
                                     ++ ". Please consult a doctor for proper diagnosis." |}
     end
  /\ (forall row, In row df -> occurs_in (symptom row) text ->
                  risk_level row = "Severe" ->
                  option_map res_severity (dataset_match (Some df) text) = Some "Severe").
Proof.
  split; [apply matching_rows_occurs|].
  split.
  { exists (fun row => contains (symptom row) text). split; [|reflexivity].
    intros row. apply contains_occurs. }
  split; [intros s d; now repeat split|].
  split; [apply dataset_match_selects|].
  intros row Hin Hocc Hsev.
  assert (Hcand : In row (matching_rows df text)) by now apply matching_rows_occurs.
  assert (Hprio : row_priority row = 3%Z).
  { destruct (row_priority_cases row) as [[_ H]|[[H _]|[[H _]|[H _]]]];
      [exact H | congruence | congruence |].
    exfalso. apply H. rewrite Hsev. simpl. tauto. }
  pose proof (dataset_match_selects df text) as Hsel.
  destruct (dataset_match (Some df) text) as [res|].
  - destruct Hsel as (before & best & after & Heq & Hb & Ha & ->). simpl.
    rewrite Heq in Hcand.
    assert (Hbest : (3 <= row_priority best)%Z).
    { apply in_app_or in Hcand. destruct Hcand as [H|[H|H]].
      - specialize (Hb _ H). lia.
      - subst best. lia.
      - specialize (Ha _ H). lia. }
    destruct (row_priority_cases best) as [[H _]|[[_ H]|[[_ H]|[_ H]]]];
      [now rewrite H | lia | lia | lia].
  - rewrite Hsel in Hcand. destruct Hcand.
Qed.

Lemma dataset_match_highest_risk_witness :
  option_map res_severity (dataset_match (Some sample_frame) "fever and chest pain")
  = Some "Severe".
Proof.
  apply (proj2 (proj2 (proj2 (proj2
           (dataset_match_highest_risk sample_frame "fever and chest pain")))))
    with (row := {| symptom := "chest pain"; disease := "Angina"; risk_level := "Severe" |}).
  - simpl. tauto.
  - apply contains_occurs. reflexivity.
  - reflexivity.
Defined.

End DatasetFacts.

(** ** The keyword rules *)

Section RuleFacts.

Lemma keyword_hit_occurs (keywords : list string) (text : string) :
  keyword_hit keywords text = true
  <-> exists kw, In kw keywords /\ occurs_in kw text.
Proof.
  induction keywords as [|kw keywords IH]; simpl.
  - split; [discriminate | intros (kw & [] & _)].
  - destruct (contains kw text) eqn:Hkw.
    + split; [|reflexivity]. intros _. exists kw. split; [now left|].
      now apply contains_occurs.
    + rewrite IH. split.
      * intros (k & Hin & Hocc). exists k. split; [now right | exact Hocc].
      * intros (k & [<-|Hin] & Hocc).
        -- apply contains_occurs in Hocc. congruence.
        -- now exists k.
Qed.

(** The scan stops at the first rule one of whose keywords occurs. *)
Lemma scan_conditions_first (conds : list ConditionRule) (text : string) :
  match scan_conditions conds text with
  | Some r =>
      exists before cond after kw,
        conds = (before ++ cond :: after)%list
        /\ In kw (cond_keywords cond) /\ occurs_in kw text
        /\ (forall c k, In c before -> In k (cond_keywords c) -> ~ occurs_in k text)
        /\ r = (cond_severity cond, cond_advice cond)
  | None =>
      forall c k, In c conds -> In k (cond_keywords c) -> ~ occurs_in k text
  end.
Proof.
  induction conds as [|cond conds IH]; simpl.
  - intros c k [].
  - destruct (keyword_hit (cond_keywords cond) text) eqn:Hhit.
    + apply keyword_hit_occurs in Hhit. destruct Hhit as (kw & Hin & Hocc).
      exists [], cond, conds, kw. simpl. repeat split; try assumption.
      intros c k [].
    + assert (Hnone : forall k, In k (cond_keywords cond) -> ~ occurs_in k text).
      { intros k Hin Hocc.
        assert (keyword_hit (cond_keywords cond) text = true)
          by (apply keyword_hit_occurs; now exists k).
        congruence. }
      destruct (scan_conditions conds text) as [r|].
      * destruct IH as (before & c & after & kw & -> & Hin & Hocc & Hb & ->).
        exists (cond :: before), c, after, kw. simpl. repeat split; try assumption.
        intros c' k [<-|Hc'] Hk; [now apply Hnone | now apply (Hb c')].
      * intros c k [<-|Hc] Hk; [now apply Hnone | now apply (IH c)].
Qed.

(** C7. The rule matcher returns the severity and advice of the first rule
    of the catalog, in listed order, that has a keyword occurring in the
    input; when no keyword of any rule occurs it returns the default, Mild
    with the home-care advice, which is the case of the empty string.  With
    no dataset and no reasoning service, triage of "I have chest pain" has
    severity Severe and triage of "just a mild headache" has severity Mild. *)
Theorem rule_based_triage_first_rule (text : string) :
  ((exists before cond after kw,
      CONDITIONS = (before ++ cond :: after)%list
      /\ In kw (cond_keywords cond) /\ occurs_in kw text
      /\ (forall c k, In c before -> In k (cond_keywords c) -> ~ occurs_in k text)
      /\ rule_based_triage text = (cond_severity cond, cond_advice cond))
   \/ ((forall c k, In c CONDITIONS -> In k (cond_keywords c) -> ~ occurs_in k text)
       /\ rule_based_triage text = default_verdict))
  /\ rule_based_triage "" = default_verdict
  /\ verdict_severity (fst (triage_symptoms None None "I have chest pain")) = "Severe"
  /\ verdict_severity (fst (triage_symptoms None None "just a mild headache")) = "Mild".
Proof.
  split; [|now repeat split].
  unfold rule_based_triage.
  pose proof (scan_conditions_first CONDITIONS text) as H.
  destruct (scan_conditions CONDITIONS text) as [r|].
  - left. destruct H as (before & cond & after & kw & Heq & Hin & Hocc & Hb & ->).
    now exists before, cond, after, kw.
  - right. now split.
Qed.

(** Every outcome of the rule tier is a tier of the vocabulary with an
    advice that is not empty. *)
Lemma rule_based_triage_well_formed (text : string) :
  In (fst (rule_based_triage text)) tiers /\ snd (rule_based_triage text) <> "".
Proof.
  unfold rule_based_triage, CONDITIONS, scan_conditions.
  repeat match goal with
         | |- context [if ?b then _ else _] => destruct b
         end; simpl; (split; [tauto | discriminate]).
Qed.

End RuleFacts.

(** ** The history store *)

Section HistoryFacts.

Lemma load_save_history (entry : HistoryEntry) (file : HistoryFile) :
  load_history (save_history entry file) = (load_history file ++ [entry])%list.
Proof. destruct file; reflexivity. Qed.

Example history_sample :
  load_history (save_all sample_entries None) = sample_entries
  /\ map h_disease (load_history (save_all sample_entries (Some sample_entries)))
     = [""; "Cold"; ""; "Cold"].
Proof. split; reflexivity. Qed.

(** C8. From any state of the history file, appending a sequence of entries
    one after the other and reading the history back gives the entries
    that were there, unchanged, followed by the new ones in the order they
    were appended. *)
Theorem history_append_order (file : HistoryFile) (entries : list HistoryEntry) :
  load_history (save_all entries file) = (load_history file ++ entries)%list.
Proof.
  unfold save_all. revert file.
  induction entries as [|entry entries IH]; intros file; simpl.
  - now rewrite app_nil_r.
  - rewrite IH, load_save_history, <- app_assoc. reflexivity.
Qed.

End HistoryFacts.

(** ** The parser of the reasoning response *)

Section ParserFacts.

Lemma lower_app (a b : string) : lower (a ++ b) = lower a ++ lower b.
Proof. induction a as [|c a IH]; simpl; [reflexivity | now rewrite IH]. Qed.

Lemma lower_split (s l1 l2 : string) :
  lower s = l1 ++ l2 ->
  exists s1 s2, s = s1 ++ s2 /\ lower s1 = l1 /\ lower s2 = l2.
Proof.
  revert s; induction l1 as [|c l1 IH]; intros s H.
  - now exists "", s.
  - destruct s as [|x s]; simpl in H; [discriminate|].
    injection H as Hc Hs. destruct (IH s Hs) as (s1 & s2 & -> & H1 & H2).
    exists (String x s1), s2. simpl. now rewrite Hc, H1.
Qed.

(** A label is matched whatever the case of the line's letters. *)
Lemma has_label_any_case (label line : string) :
  has_label label line = true
  <-> exists head rest, line = head ++ rest /\ lower head = label.
Proof.
  unfold has_label, startswith. rewrite prefix_occurs. split.
  - intros [rest H]. destruct (lower_split _ _ _ H) as (s1 & s2 & -> & H1 & _).
    now exists s1, s2.
  - intros (head & rest & -> & <-). exists (lower rest). apply lower_app.
Qed.

Lemma to_lower_colon (c : ascii) : Ascii.eqb (to_lower c) ":" = Ascii.eqb c ":".
Proof. destruct c as [[] [] [] [] [] [] [] []]; reflexivity. Qed.

Lemma cut_at_lower (s : string) :
  cut_at ":" (lower s) = None -> cut_at ":" s = None.
Proof.
  induction s as [|c s IH]; simpl; [reflexivity|].
  rewrite to_lower_colon. destruct (Ascii.eqb c ":"); [discriminate|].
  destruct (cut_at ":" (lower s)) as [[? ?]|]; [discriminate|].
  intros _. now rewrite IH.
Qed.

(** On a labelled line, the text after the first colon is the text after
    the label. *)
Lemma labelled_line_value (label line : string) :
  cut_at ":" label = None ->
  has_label (label ++ ":") line = true ->
  exists head value,
    line = head ++ ":" ++ value /\ lower head = label /\ after_colon line = value.
Proof.
  intros Hlabel H. apply has_label_any_case in H.
  destruct H as (head & rest & -> & Hhead).
  destruct (lower_split _ _ _ Hhead) as (h1 & h2 & -> & H1 & H2).
  destruct h2 as [|c [|? ?]]; simpl in H2; try discriminate.
  injection H2 as Hc.
  assert (c = ":"%char) as ->.
  { apply Ascii.eqb_eq. rewrite <- to_lower_colon, Hc. reflexivity. }
  exists h1, rest. rewrite append_assoc. split; [reflexivity|]. split; [exact H1|].
  apply after_colon_cut. apply cut_at_lower. now rewrite H1.
Qed.

Lemma severity_display_tiers (val : string) :
  dict_mem SEVERITY_DISPLAY val = true <-> In val tiers.
Proof.
  unfold dict_mem, SEVERITY_DISPLAY, dict_get, tiers.
  destruct (String.eqb_spec "Mild" val) as [<-|H1]; [simpl; tauto|].
  destruct (String.eqb_spec "Moderate" val) as [<-|H2]; [simpl; tauto|].
  destruct (String.eqb_spec "Severe" val) as [<-|H3]; [simpl; tauto|].
  split; [discriminate|]. simpl. intros [H|[H|[H|[]]]]; congruence.
Qed.

Lemma find_last_cons {A : Type} (p : A -> bool) (x : A) (l : list A) :
  find_last p (x :: l)
  = match find_last p l with
    | Some y => Some y
    | None => if p x then Some x else None
    end.
Proof.
  unfold find_last. simpl. induction (rev l) as [|y r IH]; simpl; [reflexivity|].
  destruct (p y); [reflexivity | exact IH].
Qed.

Lemma find_last_none {A : Type} (p : A -> bool) (l : list A) :
  (forall x, In x l -> p x = false) -> find_last p l = None.
Proof.
  intros H. unfold find_last. destruct (find p (rev l)) as [x|] eqn:Hf; [|reflexivity].
  apply find_some in Hf. destruct Hf as [Hin Hp].
  rewrite <- in_rev in Hin. rewrite (H x Hin) in Hp. discriminate.
Qed.

(** The loop from any state: each field is set by the last line that sets
    it and keeps its starting value without one. *)
Lemma parse_lines_last (lines : list string) :
  forall severity advice disease,
    fold_left parse_line lines (severity, advice, disease)
    = (match find_last sets_severity lines with
       | Some line => named_tier line
       | None => severity
       end,
       match find_last (has_label "advice:") lines with
       | Some line => strip (after_colon line)
       | None => advice
       end,
       match find_last (has_label "disease:") lines with
       | Some line => strip (after_colon line)
       | None => disease
       end).
Proof.
  induction lines as [|line lines IH]; intros severity advice disease;
    [reflexivity|].
  rewrite !find_last_cons. cbn [fold_left]. unfold parse_line at 2.
  fold (has_label "severity:" line) (has_label "advice:" line)
       (has_label "disease:" line) (after_colon line) (named_tier line)
       (names_tier line).
  unfold sets_severity at 2.
  destruct (has_label "severity:" line) eqn:Hs.
  - destruct (severity_label_only line Hs) as [-> ->]. cbn [andb].
    destruct (names_tier line); rewrite IH;
      destruct (find_last sets_severity lines),
               (find_last (has_label "advice:") lines),
               (find_last (has_label "disease:") lines); reflexivity.
  - cbn [andb]. destruct (has_label "advice:" line) eqn:Ha.
    + rewrite (advice_label_only line Ha), IH.
      destruct (find_last sets_severity lines),
               (find_last (has_label "advice:") lines),
               (find_last (has_label "disease:") lines); reflexivity.
    + destruct (has_label "disease:" line); rewrite IH;
        destruct (find_last sets_severity lines),
                 (find_last (has_label "advice:") lines),
                 (find_last (has_label "disease:") lines); reflexivity.
Qed.

(** C9. When several lines of a response carry the same label, the last one
    decides: advice and disease are the trimmed text after the first colon
    of the last Advice line and of the last Disease line, the empty string
    without such a line, and severity is the tier named by the last
    Severity line whose trimmed, title-cased value is one of the three
    tiers, Mild without such a line. *)
Theorem parse_response_last_line_wins (content : string) :
  let lines := splitlines (strip content) in
  parse_response content
  = (match find_last (fun line => has_label "severity:" line
                                  && dict_mem SEVERITY_DISPLAY
                                       (title (strip (after_colon line)))) lines with
     | Some line => title (strip (after_colon line))
     | None => "Mild"
     end,
     match find_last (has_label "advice:") lines with
     | Some line => strip (after_colon line)
     | None => ""
     end,
     match find_last (has_label "disease:") lines with
     | Some line => strip (after_colon line)
     | None => ""
     end).
Proof.
  unfold parse_response, parse_text. apply parse_lines_last.
Qed.

(** C5. The parser reads the response line by line.  A line counts for a
    field when it opens with the field's label, in any letter case; its
    value is the text after the first colon, which is the text after the
    label, trimmed.  An Advice or Disease line sets its field to that
    value.  A Severity line sets the severity to the title-cased value when
    that is one of the three tiers and leaves it as it is otherwise; any
    other line changes nothing.  The response made of the lines
    "Severity: severe", "Advice: go now", "Disease: flu" parses to Severe,
    "go now", "flu", and a response without a Severity line naming a tier,
    in particular one without a Severity line, has severity Mild. *)
Theorem parse_response_fields :
  parse_response ("Severity: severe" ++ nl ++ "Advice: go now" ++ nl ++ "Disease: flu")
  = ("Severe", "go now", "flu")
  /\ (forall content,
        (forall line, In line (splitlines (strip content)) ->
                      has_label "severity:" line = true ->
                      In (title (strip (after_colon line))) tiers -> False) ->
        verdict_severity (parse_response content) = "Mild")
  /\ (forall severity advice disease line,
        (exists head value,
           line = head ++ ":" ++ value /\ lower head = "severity"
           /\ parse_line (severity, advice, disease) line
              = (if in_dec string_dec (title (strip value)) tiers
                 then title (strip value) else severity, advice, disease))
        \/ (exists head value,
              line = head ++ ":" ++ value /\ lower head = "advice"
              /\ parse_line (severity, advice, disease) line
                 = (severity, strip value, disease))
        \/ (exists head value,
              line = head ++ ":" ++ value /\ lower head = "disease"
              /\ parse_line (severity, advice, disease) line
                 = (severity, advice, strip value))
        \/ (has_label "severity:" line = false /\ has_label "advice:" line = false
            /\ has_label "disease:" line = false
            /\ parse_line (severity, advice, disease) line
               = (severity, advice, disease))).
Proof.
  split; [reflexivity|]. split.
  - intros content Hnone. unfold parse_response, parse_text.
    rewrite parse_lines_last. unfold verdict_severity. cbn [fst].
    rewrite find_last_none; [reflexivity|].
    intros line Hin. unfold sets_severity, names_tier, named_tier.
    destruct (has_label "severity:" line) eqn:Hs; [|reflexivity].
    cbn [andb]. destruct (dict_mem SEVERITY_DISPLAY _) eqn:Hm; [|reflexivity].
    exfalso. apply (Hnone line Hin Hs). now apply severity_display_tiers.
  - intros severity advice disease line. unfold parse_line.
    fold (has_label "severity:" line) (has_label "advice:" line)
         (has_label "disease:" line) (after_colon line).
    destruct (has_label "severity:" line) eqn:Hs;
      [|destruct (has_label "advice:" line) eqn:Ha;
        [|destruct (has_label "disease:" line) eqn:Hd]].
    + left. destruct (labelled_line_value "severity" line eq_refl Hs)
        as (head & value & Hline & Hhead & ->).
      exists head, value. split; [exact Hline|]. split; [exact Hhead|].
      destruct (in_dec string_dec (title (strip value)) tiers) as [Hin|Hout].
      * apply severity_display_tiers in Hin. now rewrite Hin.
      * destruct (dict_mem SEVERITY_DISPLAY (title (strip value))) eqn:Hm;
          [|reflexivity].
        apply severity_display_tiers in Hm. contradiction.
    + right; left. destruct (labelled_line_value "advice" line eq_refl Ha)
        as (head & value & Hline & Hhead & ->).
      now exists head, value.
    + right; right; left. destruct (labelled_line_value "disease" line eq_refl Hd)
        as (head & value & Hline & Hhead & ->).
      now exists head, value.
    + right; right; right. now repeat split.
Qed.

Lemma parse_response_fields_witness :
  verdict_severity (parse_response ("Advice: rest" ++ nl ++ "Severity: unsure")) = "Mild".
Proof.
  apply (proj1 (proj2 parse_response_fields)).
  intros line [<-|[<-|[]]] Hlabel; vm_compute in Hlabel |- *.
  - discriminate.
  - intros [H|[H|[H|[]]]]; discriminate.
Defined.

End ParserFacts.

(** ** The orchestrator *)

Section PipelineFacts.

Variable symptoms_df : option DataFrame.
Variable openai_client : option client.

(** Whatever is raised inside the [try] block is caught and logged. *)
Lemma llm_triage_catches (create : client) (text : string) :
  llm_triage (Some create) text
  = match llm_request create text with
    | Ok v => (Some v, [Request (prompt text)])
    | Raise e => (None, [Request (prompt text); LogError e])
    end.
Proof.
  unfold llm_triage. destruct (llm_request create text); reflexivity.
Qed.

Lemma llm_triage_disabled (text : string) : llm_triage None text = (None, []).
Proof. reflexivity. Qed.

Lemma remote_fault_raises (create : client) (text : string) (e : exn) :
  create (prompt text) = Raise e -> llm_request create text = Raise e.
Proof. unfold llm_request. simpl. now intros ->. Qed.

(** One run of [triage_symptoms], tier by tier. *)
Lemma triage_symptoms_run (symptoms_text : string) :
  triage_symptoms symptoms_df openai_client symptoms_text
  = let text := preprocess symptoms_text in
    match dataset_match symptoms_df text with
    | Some res => (verdict_of_match res, [Try Dataset])
    | None =>
        match llm_triage openai_client text with
        | (Some v, calls) => (v, ([Try Dataset; Try Reasoning] ++ calls)%list)
        | (None, calls) =>
            (verdict_of_rules text,
             ([Try Dataset; Try Reasoning] ++ calls ++ [Try Rules])%list)
        end
    end.
Proof.
  unfold triage_symptoms, verdict_of_match, verdict_of_rules. cbn zeta.
  destruct (dataset_match symptoms_df (preprocess symptoms_text)) as [res|];
    [reflexivity|].
  destruct (llm_triage openai_client (preprocess symptoms_text)) as [[[[s a] d]|] calls].
  - simpl. now rewrite app_nil_r.
  - simpl. destruct (rule_based_triage (preprocess symptoms_text)). reflexivity.
Qed.

Example triage_answer_sample :
  let v := fst (triage_symptoms None (Some answering_client) "  FEVER ") in
  verdict_severity v = "Severe" /\ verdict_advice v = "go now"
  /\ verdict_disease v = "flu".
Proof. repeat split. Qed.

(** C2. The tiers are tried in the order dataset, reasoning, rules, and the
    first one that succeeds gives the verdict.  On an input the dataset
    matcher succeeds on, the verdict is the matcher's severity, advice and
    disease, and the run consists of the call of the dataset matcher alone:
    the reasoning matcher and the rules are not called.  When it fails the
    reasoning matcher is called next, and the rules only when that fails. *)
Theorem triage_waterfall (symptoms_text : string) :
  let text := preprocess symptoms_text in
  match dataset_match symptoms_df text with
  | Some res =>
      triage_symptoms symptoms_df openai_client symptoms_text
      = (verdict_of_match res, [Try Dataset])
  | None =>
      match llm_triage openai_client text with
      | (Some v, calls) =>
          triage_symptoms symptoms_df openai_client symptoms_text
          = (v, ([Try Dataset; Try Reasoning] ++ calls)%list)
      | (None, calls) =>
          triage_symptoms symptoms_df openai_client symptoms_text
          = (verdict_of_rules text,
             ([Try Dataset; Try Reasoning] ++ calls ++ [Try Rules])%list)
      end
  end.
Proof.
  cbn zeta. rewrite triage_symptoms_run. cbn zeta.
  destruct (dataset_match symptoms_df (preprocess symptoms_text)); [reflexivity|].
  destruct (llm_triage openai_client (preprocess symptoms_text)) as [[v|] calls];
    reflexivity.
Qed.

End PipelineFacts.

(** ** The shape of a verdict *)

Section VerdictFacts.

Lemma find_last_some {A : Type} (p : A -> bool) (l : list A) (x : A) :
  find_last p l = Some x -> In x l /\ p x = true.
Proof.
  unfold find_last. intros H. apply find_some in H.
  destruct H as [Hin Hp]. split; [now apply in_rev | exact Hp].
Qed.

(** The parser never leaves the vocabulary. *)
Lemma parse_response_severity (content : string) :
  In (verdict_severity (parse_response content)) tiers.
Proof.
  unfold parse_response, parse_text. rewrite parse_lines_last.
  unfold verdict_severity. cbn [fst].
  destruct (find_last sets_severity (splitlines (strip content))) as [line|] eqn:Hf.
  - apply find_last_some in Hf. destruct Hf as [_ Hp].
    apply andb_true_iff in Hp. now apply severity_display_tiers.
  - simpl. tauto.
Qed.

Lemma llm_request_severity (create : client) (text : string) (v : verdict) :
  llm_request create text = Ok v -> In (verdict_severity v) tiers.
Proof.
  unfold llm_request. simpl.
  destruct (create (prompt text)) as [[[|[content|] ?]]|]; try discriminate.
  intros [= <-]. apply parse_response_severity.
Qed.

(** C1 fails as stated: the reasoning tier returns an empty advice for an
    empty response, and the dataset tier returns the risk level High of a
    row that carries it. *)
Lemma triage_verdict_counterexample :
  ~ (In (verdict_severity (fst (triage_symptoms None (Some silent_client) "fever"))) tiers
     /\ verdict_advice (fst (triage_symptoms None (Some silent_client) "fever")) <> "")
  /\ ~ (In (verdict_severity
              (fst (triage_symptoms (load_dataset (Some file_with_high)) None
                      "a bad headache"))) tiers
        /\ verdict_advice
             (fst (triage_symptoms (load_dataset (Some file_with_high)) None
                     "a bad headache")) <> "").
Proof.
  split.
  - intros [_ H]. apply H. reflexivity.
  - intros [H _]. vm_compute in H. destruct H as [H|[H|[H|[]]]]; discriminate.
Qed.

End VerdictFacts.

(** ** Loading the dataset *)

Section LoadFacts.

Lemma load_dataset_cleans (file : DataFrame) :
  load_dataset (Some file) = Some (map cleaned file).
Proof.
  unfold load_dataset, assign_symptom, assign_disease, assign_risk_level.
  rewrite !map_map. reflexivity.
Qed.

(** C4, as the code has it.  A load of a present file never fails on a
    risk level: it keeps every row, in order, with its risk level trimmed
    and title-cased, whatever the value.  A risk level outside the three
    tiers stays in the index, where it has risk priority 0, below Mild, and
    the matcher returns it as the severity when its row is the one
    selected. *)
Theorem load_dataset_keeps_risk_levels (file : DataFrame) :
  load_dataset (Some file) = Some (map cleaned file)
  /\ (forall row, ~ In (risk_level row) tiers <-> row_priority row = 0%Z)
  /\ (forall text,
        match dataset_match (load_dataset (Some file)) text with
        | Some res =>
            exists row, In row file
                        /\ res_severity res = title (strip (risk_level row))
        | None => True
        end).
Proof.
  split; [apply load_dataset_cleans|]. split.
  - intros row. destruct (row_priority_cases row) as [[H P]|[[H P]|[[H P]|[H P]]]];
      rewrite P; (split; [intros Hn|intros Hz]); try lia; try assumption;
      exfalso; apply Hn; rewrite H; simpl; tauto.
  - intros text. rewrite load_dataset_cleans.
    pose proof (dataset_match_selects (map cleaned file) text) as Hsel.
    revert Hsel. unfold DataFrame.
    destruct (dataset_match (Some (map cleaned file)) text) as [res|]; [|now intros _].
    intros (before & best & after & Heq & _ & _ & ->).
    assert (Hin : In best (matching_rows (map cleaned file) text))
      by (rewrite Heq; apply in_or_app; right; now left).
    apply matching_rows_occurs in Hin. destruct Hin as [Hin _].
    apply in_map_iff in Hin. destruct Hin as (row & <- & Hrow).
    now exists row.
Qed.

(** C4 fails as stated: the file with the risk level " high " loads, the
    index holds a row with risk level High, and the matcher returns High. *)
Lemma load_dataset_counterexample :
  load_dataset (Some file_with_high)
  = Some [{| symptom := "headache"; disease := "Migraine"; risk_level := "High" |}]
  /\ ~ In "High" tiers
  /\ option_map res_severity
       (dataset_match (load_dataset (Some file_with_high)) "a bad headache")
     = Some "High".
Proof.
  split; [reflexivity|]. split; [|reflexivity].
  intros [H|[H|[H|[]]]]; discriminate.
Qed.

(** A cell of white space only becomes the empty phrase. *)
Lemma load_dataset_blank_symptom (file : DataFrame) (raw : Row) :
  In raw file -> strip (lower (symptom raw)) = "" ->
  exists rows row,
    load_dataset (Some file) = Some rows /\ In row rows /\ symptom row = "".
Proof.
  intros Hin Hblank. exists (map cleaned file), (cleaned raw).
  split; [apply load_dataset_cleans|]. split; [now apply in_map | exact Hblank].
Qed.



End LoadFacts.

(** ** Normal forms of text *)

Section NormalFormFacts.

Ltac each_char c := destruct c as [[] [] [] [] [] [] [] []]; reflexivity.

Lemma is_space_to_lower (c : ascii) : is_space (to_lower c) = is_space c.
Proof. each_char c. Qed.

Lemma is_space_to_upper (c : ascii) : is_space (to_upper c) = is_space c.
Proof. each_char c. Qed.

Lemma to_lower_twice (c : ascii) : to_lower (to_lower c) = to_lower c.
Proof. each_char c. Qed.

Lemma to_upper_twice (c : ascii) : to_upper (to_upper c) = to_upper c.
Proof. each_char c. Qed.

Lemma is_cased_to_lower (c : ascii) : is_cased (to_lower c) = is_cased c.
Proof. each_char c. Qed.

Lemma is_cased_to_upper (c : ascii) : is_cased (to_upper c) = is_cased c.
Proof. each_char c. Qed.

Lemma space_not_cased (c : ascii) : is_space c = true -> is_cased c = false.
Proof. destruct c as [[] [] [] [] [] [] [] []]; (reflexivity || discriminate). Qed.

Lemma linebreak_is_space (c : ascii) : is_linebreak c = true -> is_space c = true.
Proof. destruct c as [[] [] [] [] [] [] [] []]; (reflexivity || discriminate). Qed.

Lemma lower_twice (s : string) : lower (lower s) = lower s.
Proof.
  induction s as [|c s IH]; simpl; [reflexivity|]. now rewrite to_lower_twice, IH.
Qed.

Lemma all_space_lower (s : string) : all_space (lower s) = all_space s.
Proof.
  induction s as [|c s IH]; simpl; [reflexivity|]. now rewrite is_space_to_lower, IH.
Qed.

(** *** [lstrip] and [rstrip] *)

Lemma lstrip_parts (s : string) :
  exists pre, s = pre ++ lstrip s /\ all_space pre = true
              /\ starts_with_space (lstrip s) = false.
Proof.
  induction s as [|c s (pre & Heq & Hpre & Hs)]; simpl.
  - now exists "".
  - destruct (is_space c) eqn:Hc.
    + exists (String c pre). simpl. rewrite Hc, Hpre, <- Heq. now repeat split.
    + exists "". simpl. now repeat split.
Qed.

Lemma rstrip_empty (s : string) : rstrip s = "" <-> all_space s = true.
Proof.
  induction s as [|c s IH]; simpl; [tauto|].
  destruct (rstrip s) as [|x r].
  - destruct (is_space c); simpl; [|split; discriminate].
    split; [intros _; now apply IH | reflexivity].
  - split; [discriminate|]. intros H. apply andb_true_iff in H.
    destruct H as [_ H]. apply IH in H. discriminate.
Qed.

Lemma rstrip_cons (c : ascii) (s : string) :
  rstrip (String c s)
  = if all_space (String c s) then "" else String c (rstrip s).
Proof.
  cbn [rstrip all_space]. destruct (rstrip s) as [|x r] eqn:Hr.
  - assert (Hs : all_space s = true) by now apply rstrip_empty.
    rewrite Hs, andb_true_r. now destruct (is_space c).
  - assert (Hs : all_space s = false).
    { destruct (all_space s) eqn:Hs; [|reflexivity].
      apply rstrip_empty in Hs. congruence. }
    now rewrite Hs, andb_false_r.
Qed.

Lemma rstrip_parts (s : string) :
  exists post, s = rstrip s ++ post /\ all_space post = true
               /\ ends_with_space (rstrip s) = false.
Proof.
  induction s as [|c s (post & Heq & Hpost & He)].
  - now exists "".
  - rewrite rstrip_cons. destruct (all_space (String c s)) eqn:Hall.
    + exists (String c s). now repeat split.
    + exists post. cbn [append]. rewrite <- Heq. split; [reflexivity|].
      split; [exact Hpost|]. cbn [ends_with_space].
      destruct (rstrip s) as [|x r] eqn:Hr; [|exact He].
      apply rstrip_empty in Hr. cbn [all_space] in Hall. rewrite Hr, andb_true_r in Hall.
      exact Hall.
Qed.

Lemma rstrip_keeps_start (s : string) :
  starts_with_space s = false -> starts_with_space (rstrip s) = false.
Proof.
  destruct s as [|c s]; [reflexivity|]. intros Hc. rewrite rstrip_cons.
  cbn [all_space]. cbn [starts_with_space] in Hc. rewrite Hc. exact Hc.
Qed.

Lemma lstrip_fixed (s : string) : starts_with_space s = false -> lstrip s = s.
Proof. destruct s as [|c s]; simpl; [reflexivity | now intros ->]. Qed.

Lemma rstrip_fixed (s : string) : ends_with_space s = false -> rstrip s = s.
Proof.
  induction s as [|c s IH]; [reflexivity|]. intros He. rewrite rstrip_cons.
  destruct s as [|x s].
  - cbn in He |- *. now rewrite He.
  - assert (Hall : all_space (String c (String x s)) = false).
    { destruct (all_space (String c (String x s))) eqn:Hall; [|reflexivity].
      cbn [all_space] in Hall. apply andb_true_iff in Hall. destruct Hall as [_ Hall].
      change (all_space (String x s) = true) in Hall.
      apply rstrip_empty in Hall. rewrite IH in Hall; [discriminate | exact He]. }
    rewrite Hall, IH; [reflexivity | exact He].
Qed.

Lemma lstrip_pad (pre s : string) : all_space pre = true -> lstrip (pre ++ s) = lstrip s.
Proof.
  induction pre as [|c pre IH]; simpl; [reflexivity|]. intros H.
  apply andb_true_iff in H. destruct H as [-> H]. now apply IH.
Qed.

Lemma all_space_app (a b : string) : all_space (a ++ b) = all_space a && all_space b.
Proof.
  induction a as [|c a IH]; simpl; [reflexivity|]. now rewrite IH, andb_assoc.
Qed.

Lemma rstrip_pad (s post : string) : all_space post = true -> rstrip (s ++ post) = rstrip s.
Proof.
  intros Hpost. induction s as [|c s IH].
  - simpl. now apply rstrip_empty.
  - cbn [append]. rewrite !rstrip_cons, IH. cbn [all_space].
    now rewrite all_space_app, Hpost, andb_true_r.
Qed.

Lemma strip_pad (pre s post : string) :
  all_space pre = true -> all_space post = true ->
  strip (pre ++ s ++ post) = strip s.
Proof.
  intros Hpre Hpost. unfold strip. rewrite lstrip_pad by exact Hpre.
  induction s as [|c s IH].
  - simpl. rewrite (proj2 (rstrip_empty (lstrip post))); [reflexivity|].
    destruct (lstrip_parts post) as (p & Heq & _ & _).
    rewrite Heq, all_space_app in Hpost. now apply andb_true_iff in Hpost.
  - cbn [append lstrip]. destruct (is_space c); [exact IH|].
    change (String c (s ++ post)) with (String c s ++ post). now apply rstrip_pad.
Qed.

Lemma strip_parts (s : string) :
  exists pre post,
    s = pre ++ strip s ++ post /\ all_space pre = true /\ all_space post = true
    /\ starts_with_space (strip s) = false /\ ends_with_space (strip s) = false.
Proof.
  destruct (lstrip_parts s) as (pre & Heq & Hpre & Hs).
  destruct (rstrip_parts (lstrip s)) as (post & Heq' & Hpost & He).
  exists pre, post. unfold strip. rewrite <- Heq', <- Heq.
  repeat split; try assumption. now apply rstrip_keeps_start.
Qed.

Lemma strip_fixed (s : string) :
  starts_with_space s = false -> ends_with_space s = false -> strip s = s.
Proof.
  intros Hs He. unfold strip. rewrite (lstrip_fixed s Hs). now apply rstrip_fixed.
Qed.

Lemma strip_twice (s : string) : strip (strip s) = strip s.
Proof.
  destruct (strip_parts s) as (_ & _ & _ & _ & _ & Hs & He). now apply strip_fixed.
Qed.

Lemma lower_lstrip (s : string) : lower (lstrip s) = lstrip (lower s).
Proof.
  induction s as [|c s IH]; simpl; [reflexivity|]. rewrite is_space_to_lower.
  destruct (is_space c); [exact IH | reflexivity].
Qed.

Lemma lower_rstrip (s : string) : lower (rstrip s) = rstrip (lower s).
Proof.
  induction s as [|c s IH]; [reflexivity|].
  change (lower (String c s)) with (String (to_lower c) (lower s)).
  rewrite !rstrip_cons. cbn [all_space]. rewrite is_space_to_lower, all_space_lower.
  destruct (is_space c && all_space s); [reflexivity|]. simpl. now rewrite IH.
Qed.

Lemma lower_strip (s : string) : lower (strip s) = strip (lower s).
Proof. unfold strip. now rewrite lower_rstrip, lower_lstrip. Qed.

End NormalFormFacts.

(** ** Normalisation of the input *)

Section PreprocessFacts.

Lemma preprocess_twice (text : string) :
  preprocess (preprocess text) = preprocess text.
Proof.
  unfold preprocess. now rewrite lower_strip, lower_twice, strip_twice.
Qed.

(** X1. Normalising twice is normalising once. *)
Theorem preprocess_idempotent (text : string) :
  preprocess (preprocess text) = preprocess text.
Proof. exact (preprocess_twice text). Qed.

(** X2. The normal form of a text is the text in lower case without the
    white space at its two ends: the lowered text is the normal form
    between two runs of white space, and the normal form is in lower case
    and neither starts nor ends with white space. *)
Theorem preprocess_shape (text : string) :
  (exists pre post,
     lower text = pre ++ preprocess text ++ post
     /\ all_space pre = true /\ all_space post = true)
  /\ lower (preprocess text) = preprocess text
  /\ starts_with_space (preprocess text) = false
  /\ ends_with_space (preprocess text) = false.
Proof.
  unfold preprocess.
  destruct (strip_parts (lower text)) as (pre & post & Heq & Hpre & Hpost & Hs & He).
  split; [now exists pre, post|].
  split; [now rewrite lower_strip, lower_twice|]. now split.
Qed.

Lemma preprocess_pad_case (a b pre post : string) :
  all_space pre = true -> all_space post = true ->
  lower a = lower (pre ++ b ++ post) ->
  preprocess a = preprocess b.
Proof.
  intros Hpre Hpost Heq. unfold preprocess. rewrite Heq, !lower_app.
  apply strip_pad; now rewrite all_space_lower.
Qed.

(** X3. Two inputs that differ only in the case of their letters and in
    white space around them get the same run of triage: the same verdict
    from the same tier. *)
Theorem triage_ignores_case_and_padding (symptoms_df : option DataFrame)
    (openai_client : option client) (a b pre post : string)
    (Hpre : all_space pre = true) (Hpost : all_space post = true)
    (Hcase : lower a = lower (pre ++ b ++ post)) :
  triage_symptoms symptoms_df openai_client a
  = triage_symptoms symptoms_df openai_client b.
Proof.
  unfold triage_symptoms. cbn zeta.
  now rewrite (preprocess_pad_case a b pre post Hpre Hpost Hcase).
Qed.

Lemma triage_ignores_case_and_padding_witness :
  triage_symptoms (Some sample_frame) None "  FEVER "
  = triage_symptoms (Some sample_frame) None "fever".
Proof.
  apply (triage_ignores_case_and_padding (Some sample_frame) None
           "  FEVER " "fever" "  " " " eq_refl eq_refl eq_refl).
Defined.

End PreprocessFacts.

(** ** Cleaning *)

Section CleaningFacts.

Lemma title_from_twice (s : string) :
  forall b, title_from b (title_from b s) = title_from b s.
Proof.
  induction s as [|c s IH]; intros b; [reflexivity|]. cbn [title_from].
  destruct b.
  - now rewrite to_lower_twice, is_cased_to_lower, IH.
  - now rewrite to_upper_twice, is_cased_to_upper, IH.
Qed.

Lemma title_from_empty (b : bool) (s : string) : title_from b s = "" <-> s = "".
Proof. destruct s; simpl; split; congruence. Qed.

Lemma all_space_title_from (s : string) :
  forall b, all_space (title_from b s) = all_space s.
Proof.
  induction s as [|c s IH]; intros b; [reflexivity|]. cbn [title_from all_space].
  rewrite IH. destruct b; now rewrite ?is_space_to_lower, ?is_space_to_upper.
Qed.

Lemma rstrip_title_from (s : string) :
  forall b, rstrip (title_from b s) = title_from b (rstrip s).
Proof.
  induction s as [|c s IH]; intros b; [reflexivity|].
  change (title_from b (String c s))
    with (String (if b then to_lower c else to_upper c) (title_from (is_cased c) s)).
  rewrite !rstrip_cons. cbn [all_space]. rewrite all_space_title_from.
  replace (is_space (if b then to_lower c else to_upper c)) with (is_space c)
    by (destruct b; now rewrite ?is_space_to_lower, ?is_space_to_upper).
  destruct (is_space c && all_space s); [reflexivity|].
  cbn [title_from]. now rewrite IH.
Qed.

Lemma lstrip_title (s : string) : lstrip (title s) = title (lstrip s).
Proof.
  unfold title. induction s as [|c s IH]; [reflexivity|].
  cbn [title_from lstrip]. rewrite is_space_to_upper.
  destruct (is_space c) eqn:Hc; [|reflexivity].
  now rewrite (space_not_cased c Hc).
Qed.

Lemma strip_title (s : string) : strip (title s) = title (strip s).
Proof. unfold strip. rewrite lstrip_title. apply rstrip_title_from. Qed.

Lemma cleaned_twice (row : Row) : cleaned (cleaned row) = cleaned row.
Proof.
  unfold cleaned. cbn [symptom disease risk_level]. f_equal.
  - apply preprocess_twice.
  - apply strip_twice.
  - unfold title at 1 2. now rewrite strip_title, strip_twice, title_from_twice.
Qed.

End CleaningFacts.

(** ** The loaded dataset *)

Section LoadedDatasetFacts.

(** X4. For a file whose risk levels are ASCII text, a load gives as many
    rows as the file has, each in canonical form: the symptom phrase is its
    own normal form, the disease has no white space at its ends, the risk
    level is trimmed and title-cased.  Loading the loaded rows again changes
    nothing. *)
Theorem load_dataset_canonical (file : DataFrame)
    (Hascii : forallb (fun row => ascii_text (risk_level row)) file = true) :
  exists rows,
    load_dataset (Some file) = Some rows
    /\ List.length rows = List.length file
    /\ (forall row, In row rows ->
          preprocess (symptom row) = symptom row
          /\ strip (disease row) = disease row
          /\ title (strip (risk_level row)) = risk_level row)
    /\ load_dataset (Some rows) = Some rows.
Proof.
  exists (map cleaned file). split; [apply load_dataset_cleans|].
  split; [apply length_map|]. split.
  - intros row Hin. apply in_map_iff in Hin. destruct Hin as (raw & <- & _).
    pose proof (cleaned_twice raw) as H. unfold cleaned at 1 in H.
    injection H as Hs Hd Hr. now repeat split.
  - rewrite load_dataset_cleans, map_map.
    apply (f_equal Some). apply map_ext. intros raw. apply cleaned_twice.
Qed.

Lemma load_dataset_canonical_witness :
  exists rows,
    load_dataset (Some file_with_blank) = Some rows
    /\ List.length rows = List.length file_with_blank
    /\ (forall row, In row rows ->
          preprocess (symptom row) = symptom row
          /\ strip (disease row) = disease row
          /\ title (strip (risk_level row)) = risk_level row)
    /\ load_dataset (Some rows) = Some rows.
Proof. apply (load_dataset_canonical file_with_blank eq_refl). Defined.

Lemma occurs_in_refl (s : string) : occurs_in s s.
Proof. exists "", "". simpl. now rewrite append_empty_r. Qed.

Lemma occurs_in_trans (a b c : string) : occurs_in a b -> occurs_in b c -> occurs_in a c.
Proof.
  intros (p & q & ->) (p' & q' & ->). exists (p' ++ p), (q ++ q').
  now rewrite !append_assoc.
Qed.

Lemma dataset_match_some_iff (rows : DataFrame) (text : string) :
  (exists res, dataset_match (Some rows) text = Some res)
  <-> exists row, In row rows /\ occurs_in (symptom row) text.
Proof.
  pose proof (dataset_match_selects rows text) as Hsel. revert Hsel.
  destruct (dataset_match (Some rows) text) as [res|].
  - intros (before & best & after & Heq & _). split; [|now exists res].
    intros _. exists best. apply matching_rows_occurs. rewrite Heq.
    apply in_or_app. right. now left.
  - intros Hnil. split; [intros [res H]; discriminate|].
    intros (row & Hin & Hocc).
    assert (Hc : In row (matching_rows rows text)) by now apply matching_rows_occurs.
    rewrite Hnil in Hc. destruct Hc.
Qed.

(** X5. Triage over a loaded file is answered by the dataset tier exactly
    when the normal form of some symptom cell of the file occurs in the
    normal form of the input; in every other case the run goes on to the
    reasoning tier. *)
Theorem dataset_tier_answers_iff (file : DataFrame) (openai_client : option client)
    (symptoms_text : string) :
  snd (triage_symptoms (load_dataset (Some file)) openai_client symptoms_text)
  = [Try Dataset]
  <-> exists raw, In raw file
                  /\ occurs_in (preprocess (symptom raw)) (preprocess symptoms_text).
Proof.
  rewrite triage_symptoms_run, load_dataset_cleans. cbn zeta.
  assert (Hiff : (exists res, dataset_match (Some (map cleaned file))
                                (preprocess symptoms_text) = Some res)
                 <-> exists raw, In raw file
                       /\ occurs_in (preprocess (symptom raw)) (preprocess symptoms_text)).
  { rewrite dataset_match_some_iff. split.
    - intros (row & Hin & Hocc). apply in_map_iff in Hin.
      destruct Hin as (raw & <- & Hraw). now exists raw.
    - intros (raw & Hraw & Hocc). exists (cleaned raw). split; [now apply in_map|exact Hocc]. }
  rewrite <- Hiff. unfold DataFrame.
  destruct (dataset_match (Some (map cleaned file)) (preprocess symptoms_text)) as [res|].
  - split; [now exists res | reflexivity].
  - split; [|intros [res H]; discriminate].
    destruct (llm_triage openai_client (preprocess symptoms_text)) as [[v|] calls];
      cbn [snd app]; discriminate.
Qed.

Lemma dataset_match_bound (rows : DataFrame) (text : string) (res : MatchResult) :
  dataset_match (Some rows) text = Some res ->
  (exists best, In best (matching_rows rows text)
                /\ res_severity res = risk_level best)
  /\ forall row, In row (matching_rows rows text) ->
                 (row_priority row <= severity_rank (res_severity res))%Z.
Proof.
  intros Hres. pose proof (dataset_match_selects rows text) as Hsel.
  rewrite Hres in Hsel. destruct Hsel as (before & best & after & Heq & Hb & Ha & ->).
  cbn [res_severity]. split.
  - exists best. split; [|reflexivity]. rewrite Heq. apply in_or_app. right. now left.
  - intros row Hin. change (severity_rank (risk_level best)) with (row_priority best).
    rewrite Heq in Hin. apply in_app_or in Hin. destruct Hin as [H|[H|H]].
    + specialize (Hb _ H). lia.
    + subst row. lia.
    + now apply Ha.
Qed.

(** X6. The dataset matcher is monotone in its input: when it succeeds on
    a text it succeeds on every text that text occurs in, with a severity
    whose risk priority is at least as high. *)
Theorem dataset_match_monotone (symptoms_df : option DataFrame)
    (text text' : string) (res : MatchResult)
    (Hsub : occurs_in text text')
    (Hres : dataset_match symptoms_df text = Some res) :
  exists res',
    dataset_match symptoms_df text' = Some res'
    /\ (severity_rank (res_severity res) <= severity_rank (res_severity res'))%Z.
Proof.
  destruct symptoms_df as [rows|]; [|discriminate].
  destruct (dataset_match_bound rows text res Hres) as [(best & Hbest & Hsev) _].
  apply matching_rows_occurs in Hbest. destruct Hbest as [Hin Hocc].
  assert (Hc : In best (matching_rows rows text')).
  { apply matching_rows_occurs. split; [exact Hin|]. now apply (occurs_in_trans _ text). }
  destruct (proj2 (dataset_match_some_iff rows text')) as [res' Hres'].
  { exists best. now apply matching_rows_occurs. }
  exists res'. split; [exact Hres'|].
  destruct (dataset_match_bound rows text' res' Hres') as [_ Hmax].
  rewrite Hsev. exact (Hmax best Hc).
Qed.

Lemma dataset_match_monotone_witness :
  exists res',
    dataset_match (Some sample_frame) "a high fever since monday" = Some res'
    /\ (severity_rank "Moderate" <= severity_rank (res_severity res'))%Z.
Proof.
  apply (dataset_match_monotone (Some sample_frame) "fever" "a high fever since monday"
           {| res_disease := "Flu"; res_severity := "Moderate";
              res_advice := "Possible: Flu. Please consult a doctor for proper diagnosis." |}).
  - now exists "a high ", " since monday".
  - reflexivity.
Defined.

End LoadedDatasetFacts.

(** ** More on the keyword rules *)

Section RuleOutcomeFacts.

Lemma keyword_hit_monotone (keywords : list string) (text text' : string) :
  occurs_in text text' ->
  keyword_hit keywords text = true -> keyword_hit keywords text' = true.
Proof.
  intros Hsub H. apply keyword_hit_occurs in H. destruct H as (kw & Hin & Hocc).
  apply keyword_hit_occurs. exists kw. split; [exact Hin|].
  now apply (occurs_in_trans _ text).
Qed.

(** The scan of the catalog, rule by rule; the rule for Mild and the
    default give the same outcome. *)
Lemma rule_based_triage_cases (text : string) :
  rule_based_triage text
  = if keyword_hit (keywords_of "Severe") text then
      ("Severe", "Go to the ER immediately. Call emergency services (911 or your local number).")
    else if keyword_hit (keywords_of "Moderate") text then
      ("Moderate", "Consult a doctor within 24 hours. If symptoms worsen, seek emergency care.")
    else default_verdict.
Proof.
  change (keywords_of "Severe")
    with ["chest pain"; "shortness of breath"; "severe bleeding";
          "unconscious"; "stroke"; "heart attack"].
  change (keywords_of "Moderate")
    with ["high fever"; "vomiting"; "dehydration"; "severe headache";
          "confusion"; "stiff neck"; "difficulty breathing"].
  unfold rule_based_triage, CONDITIONS.
  cbn [scan_conditions cond_keywords cond_severity cond_advice].
  repeat match goal with
         | |- context [if keyword_hit ?k text then _ else _] =>
             destruct (keyword_hit k text)
         end; reflexivity.
Qed.

(** X7. The outcome of the rule tier is always the severity and advice of
    one rule of the catalog, the default being the outcome of the Mild
    rule.  It is Severe exactly when a keyword the catalog lists for Severe
    occurs in the text, Moderate exactly when none of those does and a
    keyword listed for Moderate occurs, and Mild in every other case. *)
Theorem rule_based_triage_outcomes (text : string) :
  (exists cond, In cond CONDITIONS
                /\ rule_based_triage text = (cond_severity cond, cond_advice cond))
  /\ (fst (rule_based_triage text) = "Severe"
      <-> exists kw, In kw (keywords_of "Severe") /\ occurs_in kw text)
  /\ (fst (rule_based_triage text) = "Moderate"
      <-> (forall kw, In kw (keywords_of "Severe") -> ~ occurs_in kw text)
          /\ exists kw, In kw (keywords_of "Moderate") /\ occurs_in kw text)
  /\ (fst (rule_based_triage text) = "Mild"
      <-> forall kw, In kw (keywords_of "Severe" ++ keywords_of "Moderate")%list ->
                     ~ occurs_in kw text).
Proof.
  rewrite rule_based_triage_cases.
  assert (Hno : forall kws, keyword_hit kws text = false ->
                            forall kw, In kw kws -> ~ occurs_in kw text).
  { intros kws H kw Hin Hocc.
    assert (keyword_hit kws text = true) by (apply keyword_hit_occurs; now exists kw).
    congruence. }
  destruct (keyword_hit (keywords_of "Severe") text) eqn:H1;
    [|destruct (keyword_hit (keywords_of "Moderate") text) eqn:H2].
  - apply keyword_hit_occurs in H1. destruct H1 as (kw & Hin & Hocc).
    split; [eexists; split; [left; reflexivity | reflexivity]|].
    cbn [fst]. split; [split; [intros _; now exists kw | reflexivity]|].
    split; (split; [discriminate|]).
    + intros [Hnone _]. exfalso. now apply (Hnone kw).
    + intros Hnone. exfalso. apply (Hnone kw); [|exact Hocc].
      apply in_or_app. now left.
  - pose proof (Hno _ H1) as Hn1.
    apply keyword_hit_occurs in H2. destruct H2 as (kw & Hin & Hocc).
    split; [eexists; split; [right; left; reflexivity | reflexivity]|].
    cbn [fst]. split; [split; [discriminate|]|].
    { intros (k & Hk & Hko). exfalso. now apply (Hn1 k). }
    split; [split; [intros _; split; [exact Hn1 | now exists kw] | reflexivity]|].
    split; [discriminate|]. intros Hnone. exfalso. apply (Hnone kw); [|exact Hocc].
    apply in_or_app. now right.
  - pose proof (Hno _ H1) as Hn1. pose proof (Hno _ H2) as Hn2.
    split; [eexists; split; [right; right; left; reflexivity | reflexivity]|].
    cbn [fst default_verdict]. split; [split; [discriminate|]|].
    { intros (k & Hk & Hko). exfalso. now apply (Hn1 k). }
    split; [split; [discriminate|]|].
    { intros [_ (k & Hk & Hko)]. exfalso. now apply (Hn2 k). }
    split; [|reflexivity]. intros _ kw Hin. apply in_app_or in Hin.
    destruct Hin as [Hin|Hin]; [now apply Hn1 | now apply Hn2].
Qed.

(** X8. The rule tier is monotone in its input: a text that contains
    another gets a severity at least as high.  More words never lower the
    severity the rules give. *)
Theorem rule_based_triage_monotone (text text' : string)
    (Hsub : occurs_in text text') :
  (severity_rank (fst (rule_based_triage text))
   <= severity_rank (fst (rule_based_triage text')))%Z.
Proof.
  rewrite !rule_based_triage_cases.
  pose proof (keyword_hit_monotone (keywords_of "Severe") text text' Hsub) as M1.
  pose proof (keyword_hit_monotone (keywords_of "Moderate") text text' Hsub) as M2.
  destruct (keyword_hit (keywords_of "Severe") text);
    destruct (keyword_hit (keywords_of "Severe") text');
    destruct (keyword_hit (keywords_of "Moderate") text);
    destruct (keyword_hit (keywords_of "Moderate") text');
    try (specialize (M1 eq_refl); discriminate);
    try (specialize (M2 eq_refl); discriminate);
    vm_compute; intros H; discriminate.
Qed.

Lemma rule_based_triage_monotone_witness :
  (severity_rank (fst (rule_based_triage "cough"))
   <= severity_rank (fst (rule_based_triage "cough and chest pain")))%Z.
Proof.
  apply (rule_based_triage_monotone "cough" "cough and chest pain").
  now exists "", " and chest pain".
Defined.

End RuleOutcomeFacts.

(** ** More on the reasoning tier *)

Section ReasoningFacts.

Variable symptoms_df : option DataFrame.

(** X9. A completion without choices, or whose first choice has a null
    content, is a fault like any other: the reasoning matcher logs the
    error ([IndexError] for the first, [AttributeError] for the second) and
    reports no match, and, the dataset having no match, triage returns the
    verdict of the rules. *)
Theorem malformed_completion_falls_through (create : client)
    (symptoms_text : string) (answers : list (option string))
    (Hcall : create (prompt (preprocess symptoms_text)) = Ok {| choices := answers |})
    (Hbad : answers = [] \/ exists rest, answers = None :: rest) :
  let text := preprocess symptoms_text in
  let e := match answers with [] => IndexError | _ => AttributeError end in
  llm_triage (Some create) text = (None, [Request (prompt text); LogError e])
  /\ (dataset_match symptoms_df text = None ->
      triage_symptoms symptoms_df (Some create) symptoms_text
      = (verdict_of_rules text,
         [Try Dataset; Try Reasoning; Request (prompt text); LogError e; Try Rules])).
Proof.
  cbn zeta.
  assert (Hreq : llm_request create (preprocess symptoms_text)
                 = Raise match answers with [] => IndexError | _ => AttributeError end).
  { unfold llm_request. cbn [bind Monad_result]. rewrite Hcall. cbn [choices].
    destruct Hbad as [->|[rest ->]]; reflexivity. }
  assert (Hllm : llm_triage (Some create) (preprocess symptoms_text)
                 = (None, [Request (prompt (preprocess symptoms_text));
                           LogError match answers with
                                    | [] => IndexError
                                    | _ => AttributeError
                                    end])).
  { rewrite llm_triage_catches, Hreq. reflexivity. }
  split; [exact Hllm|]. intros Hnone.
  rewrite triage_symptoms_run. cbn zeta. now rewrite Hnone, Hllm.
Qed.

(** X10. An answer is final.  When the dataset has no match and the first
    choice of the completion has a content, triage returns the parse of that
    content, whatever it is, and stops: the other choices are not read and
    the rules are not called. *)
Theorem answered_completion_is_final (create : client) (symptoms_text content : string)
    (rest : list (option string))
    (Hnone : dataset_match symptoms_df (preprocess symptoms_text) = None)
    (Hcall : create (prompt (preprocess symptoms_text))
             = Ok {| choices := Some content :: rest |}) :
  triage_symptoms symptoms_df (Some create) symptoms_text
  = (parse_response content,
     [Try Dataset; Try Reasoning; Request (prompt (preprocess symptoms_text))]).
Proof.
  rewrite triage_symptoms_run. cbn zeta. rewrite Hnone, llm_triage_catches.
  unfold llm_request. cbn [bind Monad_result]. rewrite Hcall. reflexivity.
Qed.

End ReasoningFacts.

Lemma malformed_completion_falls_through_witness :
  triage_symptoms None (Some (fun _ => Ok {| choices := [None; Some "Severity: Severe"] |}))
    "Vomiting"
  = (verdict_of_rules "vomiting",
     [Try Dataset; Try Reasoning; Request (prompt "vomiting");
      LogError AttributeError; Try Rules]).
Proof.
  apply (proj2 (malformed_completion_falls_through None
                  (fun _ => Ok {| choices := [None; Some "Severity: Severe"] |})
                  "Vomiting" [None; Some "Severity: Severe"] eq_refl
                  (or_intror (ex_intro _ [Some "Severity: Severe"] eq_refl)))).
  reflexivity.
Defined.

Lemma answered_completion_is_final_witness :
  triage_symptoms None (Some (fun _ => Ok {| choices := [Some "I cannot help with that."] |}))
    "chest pain"
  = (("Mild", "", ""),
     [Try Dataset; Try Reasoning; Request (prompt "chest pain")]).
Proof.
  apply (answered_completion_is_final None
           (fun _ => Ok {| choices := [Some "I cannot help with that."] |})
           "chest pain" "I cannot help with that." [] eq_refl eq_refl).
Defined.

Section TraceFacts.

Lemma prompt_carries_text (text : string) : occurs_in text (prompt text).
Proof.
  exists ("You are a medical triage assistant. "
          ++ "A patient describes their symptoms. "
          ++ "Decide the urgency: Mild (home care, self-monitor), Moderate (see a doctor within 24h), Severe (go to ER now). "
          ++ "Give a short summary of severity and advice, and if possible, suggest a likely disease (optional)." ++ nl ++ nl
          ++ "Symptoms: "),
         (nl ++ "Respond in this exact format:" ++ nl
          ++ "Severity: [Mild/Moderate/Severe]" ++ nl
          ++ "Advice: [brief advice]" ++ nl
          ++ "Disease: [optional, if highly likely]" ++ nl).
  vm_compute. reflexivity.
Qed.

(** X11. A run of triage has one of four traces: the dataset call alone;
    the three tiers in order with no request, when there is no client; the
    dataset and reasoning calls with one request; or these followed by the
    logged error and the rules.  So at most one request is sent per run, it
    is sent exactly when the dataset has no match and a client is
    configured, and its prompt is the one built from the normal form of the
    input, which occurs in it. *)
Theorem triage_trace_shapes (symptoms_df : option DataFrame)
    (openai_client : option client) (symptoms_text : string) :
  let text := preprocess symptoms_text in
  let calls := snd (triage_symptoms symptoms_df openai_client symptoms_text) in
  (calls = [Try Dataset]
   \/ calls = [Try Dataset; Try Reasoning; Try Rules]
   \/ calls = [Try Dataset; Try Reasoning; Request (prompt text)]
   \/ exists e, calls = [Try Dataset; Try Reasoning; Request (prompt text);
                         LogError e; Try Rules])
  /\ (request_count calls <= 1)%nat
  /\ (request_count calls = 1%nat
      <-> dataset_match symptoms_df text = None /\ openai_client <> None)
  /\ occurs_in text (prompt text).
Proof.
  cbn zeta. rewrite triage_symptoms_run. cbn zeta.
  split; [|split; [|split; [|apply prompt_carries_text]]];
    destruct (dataset_match symptoms_df (preprocess symptoms_text)) as [res|];
    try (destruct openai_client as [create|];
         [rewrite llm_triage_catches;
          destruct (llm_request create (preprocess symptoms_text)) as [v|e]
         |rewrite llm_triage_disabled]);
    cbn [snd app request_count filter List.length].
  - now left.
  - right; right; now left.
  - right; right; right. now exists e.
  - right; now left.
  - lia.
  - lia.
  - lia.
  - lia.
  - split; [discriminate | intros [H _]; discriminate].
  - split; [intros _; split; [reflexivity | discriminate] | reflexivity].
  - split; [intros _; split; [reflexivity | discriminate] | reflexivity].
  - split; [discriminate | intros [_ H]; now contradiction H].
Qed.

End TraceFacts.

(** ** The fields of a parsed response *)

Section ParsedFieldFacts.

Lemma one_line_app (a b : string) : one_line (a ++ b) = one_line a && one_line b.
Proof.
  induction a as [|c a IH]; simpl; [reflexivity|]. now rewrite IH, andb_assoc.
Qed.

Lemma splitlines_from_one_line (n : nat) :
  forall s line, String.length s <= n -> one_line line = true ->
                 Forall (fun l => one_line l = true) (splitlines_from line s).
Proof.
  induction n as [|n IH]; intros s line Hlen Hline.
  - destruct s; [|simpl in Hlen; lia]. simpl. destruct line; auto.
  - destruct s as [|c s]; [simpl; destruct line; auto|].
    simpl in Hlen. cbn [splitlines_from]. destruct (is_linebreak c) eqn:Hc.
    + constructor; [exact Hline|].
      destruct s as [|c' s']; [apply IH; [lia | reflexivity]|].
      destruct (Ascii.eqb c CR && Ascii.eqb c' LF);
        apply IH; simpl in *; (lia || reflexivity).
    + apply IH; [lia|]. rewrite one_line_app, Hline. simpl. now rewrite Hc.
Qed.

Lemma splitlines_one_line (s line : string) :
  In line (splitlines s) -> one_line line = true.
Proof.
  intros Hin.
  pose proof (splitlines_from_one_line (String.length s) s "" (le_n _) eq_refl) as H.
  rewrite Forall_forall in H. now apply H.
Qed.

Lemma after_colon_one_line (line : string) :
  one_line line = true -> one_line (after_colon line) = true.
Proof.
  intros H. unfold after_colon, split1.
  destruct (cut_at ":" line) as [[before after]|] eqn:Hcut; [|exact H].
  apply cut_at_first in Hcut. destruct Hcut as [-> _].
  rewrite one_line_app in H. apply andb_true_iff in H. destruct H as [_ H].
  simpl in H |- *. exact H.
Qed.

Lemma strip_one_line (s : string) : one_line s = true -> one_line (strip s) = true.
Proof.
  intros H. destruct (strip_parts s) as (pre & post & Heq & _).
  rewrite Heq, !one_line_app in H. apply andb_true_iff in H. destruct H as [_ H].
  now apply andb_true_iff in H.
Qed.

(** A field set from a line is trimmed and holds no line boundary. *)
Lemma last_value_clean (p : string -> bool) (lines : list string) (field : string) :
  (forall line, In line lines -> one_line line = true) ->
  field = match find_last p lines with
          | Some line => strip (after_colon line)
          | None => ""
          end ->
  strip field = field /\ one_line field = true.
Proof.
  intros Hlines ->. destruct (find_last p lines) as [line|] eqn:Hf; [|now split].
  apply find_last_some in Hf. destruct Hf as [Hin _].
  split; [apply strip_twice|].
  apply strip_one_line, after_colon_one_line, Hlines, Hin.
Qed.

(** X12. Whatever the service answers, a verdict of the reasoning matcher
    has a severity among the three tiers, and an advice and a disease that
    are trimmed and hold no line boundary. *)
Theorem llm_triage_fields (openai_client : option client) (text : string)
    (v : verdict) (Hv : fst (llm_triage openai_client text) = Some v) :
  In (verdict_severity v) tiers
  /\ strip (verdict_advice v) = verdict_advice v
  /\ one_line (verdict_advice v) = true
  /\ strip (verdict_disease v) = verdict_disease v
  /\ one_line (verdict_disease v) = true.
Proof.
  destruct openai_client as [create|]; [|discriminate].
  rewrite llm_triage_catches in Hv.
  destruct (llm_request create text) as [v'|e] eqn:Hreq; [|discriminate].
  injection Hv as ->. split; [now apply (llm_request_severity _ _ _ Hreq)|].
  unfold llm_request in Hreq. cbn [bind Monad_result ret] in Hreq.
  destruct (create (prompt text)) as [[[|[content|] rest]]|]; try discriminate.
  injection Hreq as <-. unfold parse_response, parse_text.
  rewrite parse_lines_last. unfold verdict_advice, verdict_disease. cbn [fst snd].
  assert (Hlines : forall line, In line (splitlines (strip content)) ->
                                one_line line = true)
    by (intros line; apply splitlines_one_line).
  destruct (last_value_clean (has_label "advice:") _ _ Hlines eq_refl) as [Ha1 Ha2].
  destruct (last_value_clean (has_label "disease:") _ _ Hlines eq_refl) as [Hd1 Hd2].
  now repeat split.
Qed.

Lemma llm_triage_fields_witness :
  In "Severe" tiers /\ strip "go now" = "go now" /\ one_line "go now" = true
  /\ strip "flu" = "flu" /\ one_line "flu" = true.
Proof.
  apply (llm_triage_fields (Some answering_client) "fever" ("Severe", "go now", "flu")
           eq_refl).
Defined.

End ParsedFieldFacts.

(** ** The request handlers *)

Section HandlerFacts.

Variable symptoms_df : option DataFrame.
Variable openai_client : option client.

Let submitted (data : dict string) : string := dict_get_default data "symptoms" "".

Let verdict_for (data : dict string) : verdict :=
  fst (triage_symptoms symptoms_df openai_client (submitted data)).

Lemma triage_api_step (data : dict string) (file : HistoryFile) :
  fst (triage_api symptoms_df openai_client data file)
  = (entry_of (submitted data) (verdict_for data),
     save_history (entry_of (submitted data) (verdict_for data)) file).
Proof.
  unfold triage_api, submitted, verdict_for. cbn [bind ret Monad_Traced fst].
  reflexivity.
Qed.

Lemma api_session_load (requests : list (dict string)) :
  forall file,
    fst (api_session symptoms_df openai_client requests file)
    = map (fun data => entry_of (submitted data) (verdict_for data)) requests
    /\ load_history (snd (api_session symptoms_df openai_client requests file))
       = (load_history file
          ++ fst (api_session symptoms_df openai_client requests file))%list.
Proof.
  induction requests as [|data requests IH]; intros file.
  - simpl. now rewrite app_nil_r.
  - cbn [api_session]. rewrite triage_api_step.
    destruct (IH (save_history (entry_of (submitted data) (verdict_for data)) file))
      as [Hfst Hsnd].
    destruct (api_session symptoms_df openai_client requests
                (save_history (entry_of (submitted data) (verdict_for data)) file))
      as [entries file''].
    cbn [fst snd map] in *. split; [now rewrite Hfst|].
    rewrite Hsnd, load_save_history, <- app_assoc. reflexivity.
Qed.

Lemma entry_of_fields (symptoms : string) (v : verdict) :
  h_symptoms (entry_of symptoms v) = symptoms
  /\ (h_severity (entry_of symptoms v), h_advice (entry_of symptoms v),
      h_disease (entry_of symptoms v)) = v.
Proof. destruct v as [[? ?] ?]. now split. Qed.

(** X13. A series of calls of the API appends one entry per call, in the
    order of the calls, after the entries the file held, and changes none of
    those.  Each entry carries the text of its request as it was sent, not
    its normal form (the empty text when the request has no symptoms
    field), and the verdict of triage for that text; the responses are the
    entries appended. *)
Theorem api_session_history (requests : list (dict string)) (file : HistoryFile) :
  let entries := fst (api_session symptoms_df openai_client requests file) in
  let file' := snd (api_session symptoms_df openai_client requests file) in
  load_history file' = (load_history file ++ entries)%list
  /\ map h_symptoms entries
     = map (fun data => dict_get_default data "symptoms" "") requests
  /\ map (fun e => (h_severity e, h_advice e, h_disease e)) entries
     = map (fun data =>
              fst (triage_symptoms symptoms_df openai_client
                     (dict_get_default data "symptoms" ""))) requests.
Proof.
  cbn zeta. destruct (api_session_load requests file) as [Hfst Hsnd].
  split; [exact Hsnd|]. rewrite Hfst, !map_map.
  split; apply map_ext; intros data;
    destruct (entry_of_fields (submitted data) (verdict_for data)) as [H1 H2];
    assumption.
Qed.

(** X14. On the history page, after a series of calls of the API, the
    responses come first, the latest call first, then the entries the file
    held before, newest first. *)
Theorem history_page_after_session (requests : list (dict string)) (file : HistoryFile) :
  newest_first (history (snd (api_session symptoms_df openai_client requests file)))
  = (rev (fst (api_session symptoms_df openai_client requests file))
     ++ newest_first (history file))%list.
Proof.
  unfold newest_first, history.
  destruct (api_session_load requests file) as [_ ->]. apply rev_app_distr.
Qed.

Lemma last_five_suffix {A : Type} (l : list A) :
  exists older, l = (older ++ last_five l)%list
                /\ List.length (last_five l) = Nat.min 5 (List.length l).
Proof.
  exists (firstn (List.length l - 5) l). unfold last_five.
  rewrite firstn_skipn, length_skipn. split; [reflexivity | lia].
Qed.

Lemma last_five_newest {A : Type} (l : list A) (x : A) :
  exists shown, last_five (l ++ [x]) = (shown ++ [x])%list.
Proof.
  exists (skipn (List.length l + 1 - 5) l).
  unfold last_five. rewrite length_app, skipn_app. cbn [List.length].
  replace (List.length l + 1 - 5 - List.length l) with 0 by lia.
  reflexivity.
Qed.

(** X15. A POST of the home page appends to the history one entry, made of
    the submitted text and of its verdict, shows it as the result, and
    lists it last among the entries of the page, which are the five most
    recent ones, or all of them when there are fewer.  Any other method
    leaves the history file as it is and shows no result. *)
Theorem home_page (method : string) (form : dict string) (file : HistoryFile) :
  let ctx := fst (fst (home symptoms_df openai_client method form file)) in
  let file' := snd (fst (home symptoms_df openai_client method form file)) in
  let symptoms := dict_get_default form "symptoms" "" in
  let entry := entry_of symptoms
                 (fst (triage_symptoms symptoms_df openai_client symptoms)) in
  home_history ctx = load_history file'
  /\ (exists older, home_history ctx = (older ++ last_five (home_history ctx))%list)
  /\ List.length (last_five (home_history ctx))
     = Nat.min 5 (List.length (home_history ctx))
  /\ if String.eqb method "POST" then
       triage_result ctx = Some entry
       /\ load_history file' = (load_history file ++ [entry])%list
       /\ (exists shown, last_five (home_history ctx) = (shown ++ [entry])%list)
     else
       triage_result ctx = None /\ file' = file.
Proof.
  cbn zeta. unfold home. destruct (String.eqb method "POST").
  - cbn [bind ret Monad_Traced].
    destruct (triage_symptoms symptoms_df openai_client
                (dict_get_default form "symptoms" "")) as [v calls].
    cbn [fst snd home_history triage_result]. rewrite load_save_history.
    split; [reflexivity|].
    destruct (last_five_suffix (load_history file ++ [entry_of (dict_get_default form "symptoms" "") v]))
      as (older & Heq & Hlen).
    split; [now exists older|]. split; [exact Hlen|].
    split; [reflexivity|]. split; [reflexivity|]. apply last_five_newest.
  - cbn [fst snd ret Monad_Traced home_history triage_result].
    destruct (last_five_suffix (load_history file)) as (older & Heq & Hlen).
    split; [reflexivity|]. split; [now exists older|]. now split.
Qed.

Lemma triage_severity_displayable (symptoms_text : string) :
  recognised_frame symptoms_df = true ->
  dict_mem SEVERITY_DISPLAY
    (verdict_severity (fst (triage_symptoms symptoms_df openai_client symptoms_text)))
  = true.
Proof.
  intros Hdf. rewrite triage_symptoms_run. cbn zeta.
  destruct (dataset_match symptoms_df (preprocess symptoms_text)) as [res|] eqn:Hd.
  - destruct symptoms_df as [rows|]; [|discriminate].
    destruct (dataset_match_bound rows _ res Hd) as [(best & Hbest & Hsev) _].
    cbn [fst]. unfold verdict_of_match, verdict_severity. cbn [fst]. rewrite Hsev.
    apply matching_rows_occurs in Hbest. destruct Hbest as [Hin _].
    cbn [recognised_frame] in Hdf. rewrite forallb_forall in Hdf. now apply Hdf.
  - destruct openai_client as [create|].
    + rewrite llm_triage_catches.
      destruct (llm_request create (preprocess symptoms_text)) as [v|e] eqn:Hreq.
      * cbn [fst]. apply severity_display_tiers.
        now apply (llm_request_severity _ _ _ Hreq).
      * cbn [fst]. apply severity_display_tiers.
        apply (rule_based_triage_well_formed (preprocess symptoms_text)).
    + rewrite llm_triage_disabled. cbn [fst]. apply severity_display_tiers.
      apply (rule_based_triage_well_formed (preprocess symptoms_text)).
Qed.

(** X16. The pages look up the display record of the severity of every
    entry they show.  When every risk level of the dataset is one of the
    three tiers, a call of the API keeps the history within reach of that
    table: if every stored entry has a severity with a display record, so
    has every entry stored after the call. *)
Theorem history_stays_displayable (data : dict string) (file : HistoryFile)
    (Hdf : recognised_frame symptoms_df = true)
    (Hfile : forallb displayable (load_history file) = true) :
  forallb displayable
    (load_history (snd (fst (triage_api symptoms_df openai_client data file))))
  = true.
Proof.
  rewrite triage_api_step. cbn [snd]. rewrite load_save_history, forallb_app, Hfile.
  cbn [forallb andb]. rewrite andb_true_r. unfold displayable.
  destruct (entry_of_fields (submitted data) (verdict_for data)) as [_ Hv].
  replace (h_severity (entry_of (submitted data) (verdict_for data)))
    with (verdict_severity (verdict_for data))
    by (rewrite <- Hv at 1; reflexivity).
  now apply triage_severity_displayable.
Qed.

End HandlerFacts.

Lemma history_stays_displayable_witness :
  forallb displayable
    (load_history
       (snd (fst (triage_api (Some sample_frame) (Some answering_client)
                    [("symptoms", "Dizzy")] (Some sample_entries)))))
  = true.
Proof.
  apply (history_stays_displayable (Some sample_frame) (Some answering_client)
           [("symptoms", "Dizzy")] (Some sample_entries) eq_refl eq_refl).
Defined.

(** ** The dataset tier over blank fields *)

Section CellFacts.

Lemma collect_matches_text (rows : CellFrame) (text : string) :
  symptoms_are_text (Some rows) = true ->
  collect_matches rows text = Ok (matching_cell_rows rows text).
Proof.
  cbn [symptoms_are_text]. induction rows as [|row rows IH]; [reflexivity|].
  cbn [forallb]. intros H. apply andb_true_iff in H. destruct H as [Hrow Hrows].
  cbn [collect_matches matching_cell_rows filter].
  destruct (cell_symptom row) as [phrase|]; [|discriminate].
  cbn [cell_in bind Monad_result]. rewrite (IH Hrows).
  unfold matching_cell_rows. now destruct (contains phrase text).
Qed.

Lemma collect_matches_blank (rows : CellFrame) (text : string) :
  symptoms_are_text (Some rows) = false ->
  collect_matches rows text = Raise TypeError.
Proof.
  cbn [symptoms_are_text]. induction rows as [|row rows IH]; [discriminate|].
  cbn [forallb collect_matches].
  destruct (cell_symptom row) as [phrase|]; [|reflexivity].
  cbn [is_text andb cell_in bind Monad_result]. intros H. now rewrite (IH H).
Qed.

Lemma matching_cell_rows_occurs (rows : CellFrame) (text : string) (row : CellRow) :
  In row (matching_cell_rows rows text)
  <-> In row rows /\ cell_occurs_in (cell_symptom row) text.
Proof.
  unfold matching_cell_rows, cell_occurs_in. rewrite filter_In.
  destruct (cell_symptom row) as [phrase|].
  - rewrite contains_occurs. split.
    + intros [Hin Hocc]. split; [exact Hin|]. now exists phrase.
    + intros [Hin (p & [= <-] & Hocc)]. now split.
  - split; [intros [_ H]; discriminate | intros [_ (p & H & _)]; discriminate].
Qed.

Lemma cell_priority_cases (c : cell) :
  (c = Text "Severe" /\ cell_priority c = 3%Z)
  \/ (c = Text "Moderate" /\ cell_priority c = 2%Z)
  \/ (c = Text "Mild" /\ cell_priority c = 1%Z)
  \/ (~ is_tier c /\ cell_priority c = 0%Z).
Proof.
  destruct c as [s|].
  - unfold cell_priority, dict_get_default, risk_priority, dict_get.
    destruct (String.eqb_spec "Severe" s) as [<-|H3]; [now left|].
    destruct (String.eqb_spec "Moderate" s) as [<-|H2]; [now right; left|].
    destruct (String.eqb_spec "Mild" s) as [<-|H1]; [now right; right; left|].
    right; right; right. split; [|reflexivity].
    intros (tier & [= <-] & [H|[H|[H|[]]]]); congruence.
  - right; right; right. split; [|reflexivity]. intros (tier & H & _). discriminate.
Qed.

(** With text in every symptom cell the matcher returns: no match without
    a candidate, else the first candidate of greatest priority. *)
Lemma dataset_match_cells_selects (rows : CellFrame) (text : string) :
  symptoms_are_text (Some rows) = true ->
  (dataset_match_cells (Some rows) text = Ok None
   /\ matching_cell_rows rows text = [])
  \/ exists before best after,
       matching_cell_rows rows text = (before ++ best :: after)%list
       /\ (forall r, In r before -> (cell_row_priority r < cell_row_priority best)%Z)
       /\ (forall r, In r after -> (cell_row_priority r <= cell_row_priority best)%Z)
       /\ dataset_match_cells (Some rows) text
          = Ok (Some {| cm_disease := cell_disease best;
                        cm_severity := cell_risk_level best;
                        cm_advice := "Possible: " ++ cell_str (cell_disease best)
                                     ++ ". Please consult a doctor for proper diagnosis." |}).
Proof.
  intros Htext. unfold dataset_match_cells.
  rewrite (collect_matches_text rows text Htext). cbn [bind Monad_result].
  destruct (matching_cell_rows rows text) as [|first rest]; [now left|].
  right. destruct (max_from_first_maximum cell_row_priority rest first)
    as (before & after & Heq & Hb & Ha).
  exists before, (max_from cell_row_priority first rest), after. now repeat split.
Qed.

Lemma dataset_match_cells_blank (rows : CellFrame) (text : string) :
  symptoms_are_text (Some rows) = false ->
  dataset_match_cells (Some rows) text = Raise TypeError.
Proof.
  intros H. unfold dataset_match_cells. now rewrite (collect_matches_blank rows text H).
Qed.

(** *** Agreement with the model over text *)

Lemma max_from_map {A B : Type} (f : A -> B) (key : A -> Z) (key' : B -> Z)
    (rest : list A) :
  (forall x, key' (f x) = key x) ->
  forall first, max_from key' (f first) (map f rest) = f (max_from key first rest).
Proof.
  intros Hkey. induction rest as [|x rest IH]; intros first; [reflexivity|].
  cbn [map max_from]. rewrite !Hkey. destruct (key first <? key x)%Z; apply IH.
Qed.

Lemma matching_cell_rows_of_text (df : DataFrame) (text : string) :
  matching_cell_rows (cells_of_frame df) text = map cells_of_row (matching_rows df text).
Proof.
  unfold matching_cell_rows, cells_of_frame, matching_rows.
  induction df as [|row df IH]; [reflexivity|]. cbn [map filter cells_of_row cell_symptom].
  destruct (contains (symptom row) text); cbn [map]; now rewrite IH.
Qed.

Lemma symptoms_of_text (df : option DataFrame) :
  symptoms_are_text (option_map cells_of_frame df) = true.
Proof.
  destruct df as [rows|]; [|reflexivity]. cbn [option_map symptoms_are_text].
  induction rows as [|row rows IH]; [reflexivity|exact IH].
Qed.

(** On a frame of text the two models of the matcher agree. *)
Lemma dataset_match_cells_of_text (df : option DataFrame) (text : string) :
  dataset_match_cells (option_map cells_of_frame df) text
  = Ok (option_map cells_of_match (dataset_match df text)).
Proof.
  destruct df as [rows|]; [|reflexivity]. cbn [option_map].
  unfold dataset_match_cells, dataset_match.
  rewrite (collect_matches_text _ text (symptoms_of_text (Some rows))).
  rewrite matching_cell_rows_of_text. fold (matching_rows rows text).
  cbn [bind Monad_result].
  destruct (matching_rows rows text) as [|first rest]; [reflexivity|].
  cbn [map option_map].
  rewrite (max_from_map cells_of_row row_priority cell_row_priority rest
             (fun x => eq_refl) first).
  reflexivity.
Qed.

(** On a frame of text the two models of triage agree: the run over cells
    returns, with the verdict and the trace of the run over text. *)
Lemma triage_symptoms_cells_of_text (df : option DataFrame)
    (openai_client : option client) (symptoms_text : string) :
  triage_symptoms_cells (option_map cells_of_frame df) openai_client symptoms_text
  = (Ok (cells_of_verdict (fst (triage_symptoms df openai_client symptoms_text))),
     snd (triage_symptoms df openai_client symptoms_text)).
Proof.
  unfold triage_symptoms_cells. cbn zeta.
  rewrite dataset_match_cells_of_text, triage_symptoms_run. cbn zeta.
  destruct (dataset_match df (preprocess symptoms_text)) as [res|]; [reflexivity|].
  cbn [option_map].
  destruct (llm_triage openai_client (preprocess symptoms_text)) as [[[[s a] d]|] calls];
    [reflexivity|].
  unfold verdict_of_rules. now destruct (rule_based_triage (preprocess symptoms_text)).
Qed.

(** *** The verdict *)

(** C1, as the code has it.  When no symptom cell of the loaded dataset is
    blank (and when there is no dataset), every input gets a verdict.  Its
    severity is one of Mild, Moderate, Severe, except when the dataset
    matcher selected a row whose risk level is something else, another text
    or a blank: the severity is then that cell.  Its advice is not empty,
    except possibly when the reasoning matcher produced the verdict: the
    advice is then whatever the response gave, the empty string for a
    response without an Advice value. *)
Theorem triage_verdict_when_phrases_are_text (symptoms_df : option CellFrame)
    (openai_client : option client) (symptoms_text : string)
    (Htext : symptoms_are_text symptoms_df = true) :
  let text := preprocess symptoms_text in
  exists severity advice disease,
    fst (triage_symptoms_cells symptoms_df openai_client symptoms_text)
    = Ok (severity, advice, disease)
    /\ (is_tier severity
        \/ exists rows row,
             symptoms_df = Some rows /\ In row rows
             /\ cell_occurs_in (cell_symptom row) text
             /\ ~ is_tier (cell_risk_level row)
             /\ severity = cell_risk_level row)
    /\ (advice <> ""
        \/ (dataset_match_cells symptoms_df text = Ok None
            /\ exists create tier named,
                 openai_client = Some create
                 /\ llm_request create text = Ok (tier, advice, named)
                 /\ severity = Text tier /\ disease = Text named)).
Proof.
  cbn zeta. unfold triage_symptoms_cells. cbn zeta.
  assert (Hrules : forall calls,
    exists severity advice disease,
      fst (let '(s, a) := rule_based_triage (preprocess symptoms_text) in
           (Ok (Text s, a, Text ""),
            ([Try Dataset; Try Reasoning] ++ calls ++ [Try Rules])%list))
      = Ok (severity, advice, disease)
      /\ is_tier severity /\ advice <> "").
  { intros calls.
    destruct (rule_based_triage_well_formed (preprocess symptoms_text)) as [Hs Ha].
    destruct (rule_based_triage (preprocess symptoms_text)) as [s a].
    exists (Text s), a, (Text ""). cbn [fst snd] in *.
    split; [reflexivity|]. split; [now exists s | exact Ha]. }
  assert (Hlater : dataset_match_cells symptoms_df (preprocess symptoms_text) = Ok None ->
    exists severity advice disease,
      fst (let (llm_result, calls) := llm_triage openai_client (preprocess symptoms_text) in
           match llm_result with
           | Some (s, a, d) =>
               (Ok (Text s, a, Text d), ([Try Dataset; Try Reasoning] ++ calls)%list)
           | None =>
               let '(s, a) := rule_based_triage (preprocess symptoms_text) in
               (Ok (Text s, a, Text ""),
                ([Try Dataset; Try Reasoning] ++ calls ++ [Try Rules])%list)
           end)
      = Ok (severity, advice, disease)
      /\ is_tier severity
      /\ (advice <> ""
          \/ (dataset_match_cells symptoms_df (preprocess symptoms_text) = Ok None
              /\ exists create tier named,
                   openai_client = Some create
                   /\ llm_request create (preprocess symptoms_text)
                      = Ok (tier, advice, named)
                   /\ severity = Text tier /\ disease = Text named))).
  { intros Hnone. destruct openai_client as [create|].
    - rewrite llm_triage_catches.
      destruct (llm_request create (preprocess symptoms_text)) as [[[s a] d]|e] eqn:Hreq.
      + exists (Text s), a, (Text d). split; [reflexivity|]. split.
        * exists s. split; [reflexivity|].
          exact (llm_request_severity _ _ _ Hreq).
        * right. split; [exact Hnone|]. now exists create, s, d.
      + destruct (Hrules [Request (prompt (preprocess symptoms_text)); LogError e])
          as (sev & adv & dis & Heq & Hs & Ha).
        exists sev, adv, dis. split; [exact Heq|]. split; [exact Hs | now left].
    - rewrite llm_triage_disabled.
      destruct (Hrules []) as (sev & adv & dis & Heq & Hs & Ha).
      exists sev, adv, dis. split; [exact Heq|]. split; [exact Hs | now left]. }
  destruct symptoms_df as [rows|].
  - destruct (dataset_match_cells_selects rows (preprocess symptoms_text) Htext)
      as [[Hnone _]|(before & best & after & Heq & _ & _ & Hres)].
    + destruct (Hlater Hnone) as (sev & adv & dis & Hv & Hs & Ha).
      rewrite Hnone. exists sev, adv, dis. split; [exact Hv|]. split; [now left|].
      destruct Ha as [Ha|[_ Ha]]; [now left | right; now split].
    + rewrite Hres. cbn [fst cm_severity cm_advice cm_disease].
      eexists _, _, _. split; [reflexivity|]. split; [|left; discriminate].
      assert (Hin : In best (matching_cell_rows rows (preprocess symptoms_text)))
        by (rewrite Heq; apply in_or_app; right; now left).
      apply matching_cell_rows_occurs in Hin. destruct Hin as [Hin Hocc].
      destruct (cell_priority_cases (cell_risk_level best))
        as [[H _]|[[H _]|[[H _]|[H _]]]].
      * left. exists "Severe". split; [exact H | simpl; tauto].
      * left. exists "Moderate". split; [exact H | simpl; tauto].
      * left. exists "Mild". split; [exact H | simpl; tauto].
      * right. now exists rows, best.
  - destruct (Hlater eq_refl) as (sev & adv & dis & Hv & Hs & Ha).
    cbn [dataset_match_cells]. exists sev, adv, dis.
    split; [exact Hv|]. split; [now left | exact Ha].
Qed.

Lemma triage_verdict_when_phrases_are_text_witness :
  exists severity advice disease,
    fst (triage_symptoms_cells (Some frame_with_blank_risk) None "A RASH on my arm")
    = Ok (severity, advice, disease)
    /\ (is_tier severity
        \/ exists rows row,
             Some frame_with_blank_risk = Some rows /\ In row rows
             /\ cell_occurs_in (cell_symptom row) (preprocess "A RASH on my arm")
             /\ ~ is_tier (cell_risk_level row)
             /\ severity = cell_risk_level row)
    /\ (advice <> ""
        \/ (dataset_match_cells (Some frame_with_blank_risk)
              (preprocess "A RASH on my arm") = Ok None
            /\ exists create tier named,
                 None = Some create
                 /\ llm_request create (preprocess "A RASH on my arm")
                    = Ok (tier, advice, named)
                 /\ severity = Text tier /\ disease = Text named)).
Proof.
  apply (triage_verdict_when_phrases_are_text (Some frame_with_blank_risk) None
           "A RASH on my arm" eq_refl).
Defined.

Example triage_blank_risk_sample :
  triage_symptoms_cells (Some frame_with_blank_risk) None "A RASH on my arm"
  = (Ok (NaN, "Possible: nan. Please consult a doctor for proper diagnosis.", NaN),
     [Try Dataset]).
Proof. reflexivity. Qed.

(** *** A blank symptom field *)

(** C6, at the failing input.  The claim does not hold of the code: with a
    loaded dataset that has a row with a blank symptom field, the dataset
    matcher raises [TypeError] on every input, and triage, which calls it
    outside any [try], raises it to its caller after the dataset call
    alone, whatever the reasoning service is: a failure of the dataset tier
    is surfaced and no verdict is returned. *)
Theorem triage_raises_on_blank_symptom (openai_client : option client)
    (symptoms_text : string) :
  dataset_match_cells (Some frame_with_blank_symptom) (preprocess symptoms_text)
  = Raise TypeError
  /\ triage_symptoms_cells (Some frame_with_blank_symptom) openai_client symptoms_text
     = (Raise TypeError, [Try Dataset]).
Proof. split; reflexivity. Qed.

Example triage_blank_symptom_sample :
  triage_symptoms_cells (Some frame_with_blank_symptom) None "I have chest pain"
  = (Raise TypeError, [Try Dataset]).
Proof. reflexivity. Qed.

(** X17. When the reasoning service is disabled, or its call raises, the
    reasoning matcher reports no match, and, the dataset matcher having
    returned without a match, triage returns the verdict of the rules with
    an empty disease, the rules being called last. *)
Theorem reasoning_failure_reaches_rules (symptoms_df : option CellFrame)
    (openai_client : option client) (symptoms_text : string)
    (Hfail : openai_client = None
             \/ exists create e,
                  openai_client = Some create
                  /\ create (prompt (preprocess symptoms_text)) = Raise e)
    (Hdata : dataset_match_cells symptoms_df (preprocess symptoms_text) = Ok None) :
  let text := preprocess symptoms_text in
  fst (llm_triage openai_client text) = None
  /\ exists calls,
       triage_symptoms_cells symptoms_df openai_client symptoms_text
       = (Ok (Text (fst (rule_based_triage text)), snd (rule_based_triage text), Text ""),
          ([Try Dataset; Try Reasoning] ++ calls ++ [Try Rules])%list).
Proof.
  cbn zeta. unfold triage_symptoms_cells. cbn zeta. rewrite Hdata.
  assert (Hllm : exists calls,
            llm_triage openai_client (preprocess symptoms_text) = (None, calls)).
  { destruct Hfail as [->|(create & e & -> & He)]; [now exists []|].
    rewrite llm_triage_catches, (remote_fault_raises _ _ _ He). eexists. reflexivity. }
  destruct Hllm as [calls Hllm]. rewrite Hllm. split; [reflexivity|].
  exists calls. now destruct (rule_based_triage (preprocess symptoms_text)).
Qed.

Lemma reasoning_failure_reaches_rules_witness :
  exists calls,
    triage_symptoms_cells None (Some failing_client) "I have chest pain"
    = (Ok (Text (fst (rule_based_triage (preprocess "I have chest pain"))),
           snd (rule_based_triage (preprocess "I have chest pain")), Text ""),
       ([Try Dataset; Try Reasoning] ++ calls ++ [Try Rules])%list).
Proof.
  apply (proj2 (reasoning_failure_reaches_rules None (Some failing_client)
                  "I have chest pain"
                  (or_intror (ex_intro _ failing_client
                     (ex_intro _ (APIError "timeout") (conj eq_refl eq_refl))))
                  eq_refl)).
Defined.

(** X18. Triage returns a verdict exactly when no symptom cell of the
    loaded dataset is blank.  With a blank one, every input, whatever the
    reasoning service, ends in the [TypeError] of the dataset matcher after
    the dataset call alone. *)
Theorem triage_returns_iff_phrases_are_text (symptoms_df : option CellFrame)
    (openai_client : option client) (symptoms_text : string) :
  (symptoms_are_text symptoms_df = true
   <-> exists v, fst (triage_symptoms_cells symptoms_df openai_client symptoms_text)
                 = Ok v)
  /\ (symptoms_are_text symptoms_df = false
      <-> triage_symptoms_cells symptoms_df openai_client symptoms_text
          = (Raise TypeError, [Try Dataset])).
Proof.
  destruct (symptoms_are_text symptoms_df) eqn:Htext.
  - assert (Hok : exists v,
              fst (triage_symptoms_cells symptoms_df openai_client symptoms_text) = Ok v).
    { unfold triage_symptoms_cells. cbn zeta.
      assert (Hd : exists r, dataset_match_cells symptoms_df (preprocess symptoms_text)
                             = Ok r).
      { destruct symptoms_df as [rows|]; [|now exists None].
        destruct (dataset_match_cells_selects rows (preprocess symptoms_text) Htext)
          as [[H _]|(_ & best & _ & _ & _ & _ & H)]; rewrite H; eexists; reflexivity. }
      destruct Hd as [[res|] ->]; [eexists; reflexivity|].
      destruct (llm_triage openai_client (preprocess symptoms_text))
        as [[[[s a] d]|] calls]; [eexists; reflexivity|].
      destruct (rule_based_triage (preprocess symptoms_text)). eexists. reflexivity. }
    split; [split; [intros _; exact Hok | reflexivity]|].
    split; [discriminate|]. intros H. destruct Hok as [v Hv].
    rewrite H in Hv. discriminate.
  - assert (Hraise : triage_symptoms_cells symptoms_df openai_client symptoms_text
                     = (Raise TypeError, [Try Dataset])).
    { destruct symptoms_df as [rows|]; [|discriminate].
      unfold triage_symptoms_cells. cbn zeta.
      now rewrite (dataset_match_cells_blank rows _ Htext). }
    split; [|split; [intros _; exact Hraise | reflexivity]].
    split; [discriminate|]. intros [v Hv]. rewrite Hraise in Hv. discriminate.
Qed.

End CellFacts.
